(** * mvfst: NewReno congestion controller and client handshake

    A shallow embedding of
    - [quic/congestion_control/NewReno.cpp] and
    - [quic/client/handshake/ClientHandshake.cpp]
    together with the properties of them that the specification states.

    Member functions mutate [*this] and may throw; they are embedded as
    computations in a state-and-failure monad whose failing outcome keeps the
    state reached at the point of failure (a C++ exception leaves the object
    as it was when the exception was thrown). *)

From Stdlib Require Import ZArith Lia List Bool String.
Import ListNotations.

(** ** Outcomes of a member function *)

Module Eff.

Inductive Outcome (E S A : Type) : Type :=
| Ok (a : A) (s : S)
| Failed (e : E) (s : S).

Arguments Ok {E S A} a s.
Arguments Failed {E S A} e s.

Definition M (E S A : Type) : Type := S -> Outcome E S A.

Definition ret {E S A} (a : A) : M E S A := fun s => Ok a s.

Definition bind {E S A B} (c : M E S A) (k : A -> M E S B) : M E S B :=
  fun s =>
    match c s with
    | Ok a s' => k a s'
    | Failed e s' => Failed e s'
    end.

Definition get {E S} : M E S S := fun s => Ok s s.
Definition put {E S} (s' : S) : M E S unit := fun _ => Ok tt s'.
Definition modify {E S} (f : S -> S) : M E S unit := fun s => Ok tt (f s).
Definition raise {E S A} (e : E) : M E S A := fun s => Failed e s.

(** The state an outcome ends in, whether it returned or failed. *)
Definition final {E S A} (o : Outcome E S A) : S :=
  match o with
  | Ok _ s => s
  | Failed _ s => s
  end.

End Eff.

Declare Scope eff_scope.
Delimit Scope eff_scope with eff.
Notation "x <- c ;; k" := (Eff.bind c (fun x => k))
  (at level 61, c at next level, right associativity) : eff_scope.
Notation "c ;; k" := (Eff.bind c (fun _ => k))
  (at level 61, right associativity) : eff_scope.

(** ** 64-bit unsigned quantities *)

Definition u64_modulus : Z := 2 ^ 64.
Definition u64_max : Z := 2 ^ 64 - 1.
Definition u32_max : Z := 2 ^ 32 - 1.

(** [x] is a value of type [uint64_t]. *)
Definition u64 (x : Z) : Prop := (0 <= x < u64_modulus)%Z.

Definition wrap64 (x : Z) : Z := (x mod u64_modulus)%Z.

Definition mul64 (x y : Z) : Z := wrap64 (x * y).
Definition sub64 (x y : Z) : Z := wrap64 (x - y).
Definition add64 (x y : Z) : Z := wrap64 (x + y).
Definition shr64 (x : Z) (n : Z) : Z := Z.shiftr x n.

Arguments u64_modulus : simpl never.
Arguments u64_max : simpl never.
Arguments u32_max : simpl never.
Arguments wrap64 : simpl never.
Arguments mul64 : simpl never.
Arguments sub64 : simpl never.
Arguments add64 : simpl never.
Arguments shr64 : simpl never.

(** * NewReno *)

Module NewReno.

Import Eff.
Local Open Scope Z_scope.
Local Open Scope eff_scope.

Definition PacketNum : Type := Z.

(** [conn.transportSettings]: the three window settings the controller reads. *)
Record TransportSettings : Type := mkTransportSettings {
  initCwndInMss : Z;
  minCwndInMss : Z;
  maxCwndInMss : Z
}.

(** [conn.lossState]. *)
Record LossState : Type := mkLossState {
  largestSent : PacketNum
}.

(** The part of [QuicConnectionStateBase] that [NewReno] reads through its
    reference [conn_].  The connection is owned by the transport, so every
    member function below takes the connection as it is at the time of the
    call. *)
Record QuicConnectionStateBase : Type := mkConn {
  udpSendPacketLen : Z;
  transportSettings : TransportSettings;
  lossState : LossState
}.

Record OutstandingPacket : Type := mkOutstandingPacket {
  encodedSize : Z
}.

Record AckEvent : Type := mkAckEvent {
  largestAckedPacket : option PacketNum;
  ackedBytes : Z
}.

Record LossEvent : Type := mkLossEvent {
  largestLostPacketNum : option PacketNum;
  lostBytes : Z
}.

(** The data members of [NewReno]. *)
Record State : Type := mkState {
  ssthresh_ : Z;
  cwndBytes_ : Z;
  bytesInFlight_ : Z;
  endOfRecovery_ : PacketNum
}.

Definition set_cwndBytes (v : Z) (s : State) : State :=
  mkState (ssthresh_ s) v (bytesInFlight_ s) (endOfRecovery_ s).
Definition set_bytesInFlight (v : Z) (s : State) : State :=
  mkState (ssthresh_ s) (cwndBytes_ s) v (endOfRecovery_ s).
Definition set_ssthresh (v : Z) (s : State) : State :=
  mkState v (cwndBytes_ s) (bytesInFlight_ s) (endOfRecovery_ s).
Definition set_endOfRecovery (v : PacketNum) (s : State) : State :=
  mkState (ssthresh_ s) (cwndBytes_ s) (bytesInFlight_ s) v.

(** Ways in which a member function fails instead of returning. *)
Inductive Failure : Type :=
| Overflow          (* addAndCheckOverflow refused the addition *)
| Underflow         (* subtractAndCheckUnderflow refused the subtraction *)
| CheckFailed       (* a DCHECK does not hold *)
| DivisionByZero.   (* integer division by zero *)

Definition NR (A : Type) : Type := M Failure State A.

Definition kRenoLossReductionFactorShift : Z := 1.

(** Modelled from the spec: [boundedCwnd] (CongestionControlFunctions.h is
    not part of the sources).  The window is clamped to
    [[min_cwnd_in_mss, max_cwnd_in_mss] * udp_payload_size]: first cut down to
    the upper bound, then raised to the lower bound; the two bounds are
    64-bit products. *)
Definition boundedCwnd (cwndBytes packetLength maxCwndInMss minCwndInMss : Z) : Z :=
  Z.max (Z.min cwndBytes (mul64 maxCwndInMss packetLength))
        (mul64 minCwndInMss packetLength).

(** Modelled from the spec: [addAndCheckOverflow] (same missing header).
    "[+=] with overflow check": the addition fails loudly when the sum does
    not fit the 64-bit destination. *)
Definition addAndCheckOverflow (value toAdd : Z) : Failure + Z :=
  if u64_max - toAdd <? value then inl Overflow else inr (add64 value toAdd).

(** Modelled from the spec: [subtractAndCheckUnderflow] (same missing header).
    "Every subtraction from an unsigned quantity fails loudly on underflow". *)
Definition subtractAndCheckUnderflow (value toSub : Z) : Failure + Z :=
  if value <? toSub then inl Underflow else inr (sub64 value toSub).

(** A checked update of one data member, the [T1& value] argument of the two
    helpers. *)
Definition checked (proj : State -> Z) (upd : Z -> State -> State)
    (op : Z -> Failure + Z) : NR unit :=
  s <- get ;;
  match op (proj s) with
  | inl e => raise e
  | inr v => put (upd v s)
  end.

(** [DCHECK(b)], as a build with the checks compiled in runs it: the member
    function stops there when [b] does not hold. *)
Definition DCHECK (b : bool) : NR unit :=
  if b then ret tt else raise CheckFailed.

Definition has_value {A} (o : option A) : bool :=
  match o with Some _ => true | None => false end.

Definition lower_limit (conn : QuicConnectionStateBase) : Z :=
  mul64 (minCwndInMss (transportSettings conn)) (udpSendPacketLen conn).
Definition upper_limit (conn : QuicConnectionStateBase) : Z :=
  mul64 (maxCwndInMss (transportSettings conn)) (udpSendPacketLen conn).

Definition bound_to (conn : QuicConnectionStateBase) (cwndBytes : Z) : Z :=
  boundedCwnd cwndBytes (udpSendPacketLen conn)
    (maxCwndInMss (transportSettings conn))
    (minCwndInMss (transportSettings conn)).

(** [NewReno::NewReno].  [bytesInFlight_] and [endOfRecovery_] start at 0
    (their in-class initialisers; the spec gives "init 0" for both). *)
Definition construct (conn : QuicConnectionStateBase) : State :=
  let cwndBytes :=
    mul64 (initCwndInMss (transportSettings conn)) (udpSendPacketLen conn) in
  mkState u32_max (bound_to conn cwndBytes) 0 0.

(** [NewReno::onRemoveBytesFromInflight] *)
Definition onRemoveBytesFromInflight (bytes : Z) : NR unit :=
  checked bytesInFlight_ set_bytesInFlight
    (fun v => subtractAndCheckUnderflow v bytes).

(** [NewReno::onPacketSent] *)
Definition onPacketSent (packet : OutstandingPacket) : NR unit :=
  checked bytesInFlight_ set_bytesInFlight
    (fun v => addAndCheckOverflow v (encodedSize packet)).

Section WithDefaultPacketLen.

(** [kDefaultUDPSendPacketLen] is declared in QuicConstants.h, which is not
    part of the sources. *)
Variable kDefaultUDPSendPacketLen : Z.

(** [NewReno::onPacketAcked].  The product and the quotient are [uint64_t]
    operations; the quotient has no value when [cwndBytes_] is 0, and the
    embedding fails there. *)
Definition onPacketAcked (conn : QuicConnectionStateBase) (ack : AckEvent)
    : NR unit :=
  DCHECK (has_value (largestAckedPacket ack)) ;;
  checked bytesInFlight_ set_bytesInFlight
    (fun v => subtractAndCheckUnderflow v (ackedBytes ack)) ;;
  s <- get ;;
  match largestAckedPacket ack with
  | None => raise CheckFailed
  | Some largest =>
    if largest <? endOfRecovery_ s then ret tt
    else
      (if cwndBytes_ s <? ssthresh_ s then
         checked cwndBytes_ set_cwndBytes
           (fun v => addAndCheckOverflow v (ackedBytes ack))
       else
         if cwndBytes_ s =? 0 then raise DivisionByZero
         else
           let additionFactor :=
             mul64 kDefaultUDPSendPacketLen (ackedBytes ack) / cwndBytes_ s in
           checked cwndBytes_ set_cwndBytes
             (fun v => addAndCheckOverflow v additionFactor)) ;;
      modify (fun s' => set_cwndBytes (bound_to conn (cwndBytes_ s')) s')
  end.

(** [NewReno::onPacketLoss] *)
Definition onPacketLoss (conn : QuicConnectionStateBase) (loss : LossEvent)
    : NR unit :=
  DCHECK (has_value (largestLostPacketNum loss)) ;;
  checked bytesInFlight_ set_bytesInFlight
    (fun v => subtractAndCheckUnderflow v (lostBytes loss)) ;;
  s <- get ;;
  match largestLostPacketNum loss with
  | None => raise CheckFailed
  | Some largestLost =>
    if endOfRecovery_ s <? largestLost then
      modify (set_endOfRecovery (largestSent (lossState conn))) ;;
      modify (fun s' =>
        set_cwndBytes (shr64 (cwndBytes_ s') kRenoLossReductionFactorShift) s') ;;
      modify (fun s' => set_cwndBytes (bound_to conn (cwndBytes_ s')) s') ;;
      modify (fun s' => set_ssthresh (cwndBytes_ s') s')
    else ret tt
  end.

(** [NewReno::onPacketAckOrLoss] *)
Definition onPacketAckOrLoss (conn : QuicConnectionStateBase)
    (ackEvent : option AckEvent) (lossEvent : option LossEvent) : NR unit :=
  match lossEvent with
  | Some loss => onPacketLoss conn loss
  | None => ret tt
  end ;;
  match ackEvent with
  | Some ack =>
    if has_value (largestAckedPacket ack) then onPacketAcked conn ack
    else ret tt
  | None => ret tt
  end.

(** [NewReno::onRTOVerified] *)
Definition onRTOVerified (conn : QuicConnectionStateBase) : NR unit :=
  modify (set_cwndBytes
    (mul64 (minCwndInMss (transportSettings conn)) (udpSendPacketLen conn))).

(** [NewReno::getWritableBytes] *)
Definition getWritableBytes (s : State) : Z :=
  if bytesInFlight_ s >? cwndBytes_ s then 0
  else sub64 (cwndBytes_ s) (bytesInFlight_ s).

(** [NewReno::getCongestionWindow] *)
Definition getCongestionWindow (s : State) : Z := cwndBytes_ s.

(** [NewReno::inSlowStart] *)
Definition inSlowStart (s : State) : bool := cwndBytes_ s <? ssthresh_ s.

(** [NewReno::getBytesInFlight] *)
Definition getBytesInFlight (s : State) : Z := bytesInFlight_ s.

(** *** Event traces

    An event is delivered together with the connection state as it is at
    that moment ([conn_] is a reference to state the transport keeps
    updating, e.g. [lossState.largestSent]). *)
Inductive Event : Type :=
| PacketSent (packet : OutstandingPacket)
| PacketAcked (ack : AckEvent)
| PacketLoss (loss : LossEvent)
| PacketAckOrLoss (ackEvent : option AckEvent) (lossEvent : option LossEvent)
| RTOVerified
| RemoveBytesFromInflight (bytes : Z).

Definition deliver (conn : QuicConnectionStateBase) (ev : Event) : NR unit :=
  match ev with
  | PacketSent packet => onPacketSent packet
  | PacketAcked ack => onPacketAcked conn ack
  | PacketLoss loss => onPacketLoss conn loss
  | PacketAckOrLoss a l => onPacketAckOrLoss conn a l
  | RTOVerified => onRTOVerified conn
  | RemoveBytesFromInflight bytes => onRemoveBytesFromInflight bytes
  end.

(** The states the controller goes through on a trace, the state left behind
    by a failing event included; the trace stops at the first failure (the
    failures are fatal). *)
Fixpoint states_of (trace : list (QuicConnectionStateBase * Event)) (s : State)
    : list State :=
  match trace with
  | [] => []
  | (conn, ev) :: rest =>
    match deliver conn ev s with
    | Ok _ s' => s' :: states_of rest s'
    | Failed _ s' => [s']
    end
  end.

(** The state a trace ends in when none of its events fails. *)
Fixpoint run (trace : list (QuicConnectionStateBase * Event)) (s : State)
    : option State :=
  match trace with
  | [] => Some s
  | (conn, ev) :: rest =>
    match deliver conn ev s with
    | Ok _ s' => run rest s'
    | Failed _ _ => None
    end
  end.

End WithDefaultPacketLen.

(** *** What the specification says of the window *)

(** The invariant the member functions keep for the object, relative to the
    connection it is attached to: the counters are 64-bit values and the
    window is a value the clamp leaves alone. *)
Definition valid (conn : QuicConnectionStateBase) (s : State) : Prop :=
  u64 (cwndBytes_ s) /\ u64 (bytesInFlight_ s) /\
  bound_to conn (cwndBytes_ s) = cwndBytes_ s.

(** Two snapshots of the connection that agree on what the clamp reads. *)
Definition same_limits (c1 c2 : QuicConnectionStateBase) : Prop :=
  udpSendPacketLen c1 = udpSendPacketLen c2 /\
  minCwndInMss (transportSettings c1) = minCwndInMss (transportSettings c2) /\
  maxCwndInMss (transportSettings c1) = maxCwndInMss (transportSettings c2).

(** The settings are 64-bit values. *)
Definition settings_u64 (conn : QuicConnectionStateBase) : Prop :=
  u64 (udpSendPacketLen conn) /\
  u64 (initCwndInMss (transportSettings conn)) /\
  u64 (minCwndInMss (transportSettings conn)) /\
  u64 (maxCwndInMss (transportSettings conn)).

(** "cwnd_bytes is within [min_cwnd_in_mss, max_cwnd_in_mss] *
    udp_payload_size", the products being those of the integers. *)
Definition within_limits (conn : QuicConnectionStateBase) (s : State) : Prop :=
  minCwndInMss (transportSettings conn) * udpSendPacketLen conn
    <= cwndBytes_ s
    <= maxCwndInMss (transportSettings conn) * udpSendPacketLen conn.

(** The window the specification gives for an ack in congestion avoidance:
    [cwnd_bytes + floor(default_udp_payload * acked_bytes / cwnd_bytes)],
    clamped. *)
Definition avoidance_window (defaultPacketLen : Z)
    (conn : QuicConnectionStateBase) (ack : AckEvent) (s : State) : Z :=
  bound_to conn
    (cwndBytes_ s + defaultPacketLen * ackedBytes ack / cwndBytes_ s).

(** The window the specification gives for a loss that opens a recovery
    epoch: [max(min_cwnd, cwnd_bytes / 2)], [min_cwnd] being
    [min_cwnd_in_mss * udp_payload_size]. *)
Definition halved_window (conn : QuicConnectionStateBase) (s : State) : Z :=
  Z.max (minCwndInMss (transportSettings conn) * udpSendPacketLen conn)
    (cwndBytes_ s / 2).

(** The same with the two bounds as the code computes them. *)
Definition within_computed_limits (conn : QuicConnectionStateBase) (s : State)
    : Prop :=
  lower_limit conn <= cwndBytes_ s <= upper_limit conn.

(** Sample connections and events. *)
Module Sample.

Definition kDefaultUDPSendPacketLen : Z := 1252.

(** 1252-byte packets, a window between 2 and 2000 packets, 10 at the start. *)
Definition conn : QuicConnectionStateBase :=
  mkConn 1252 (mkTransportSettings 10 2 2000) (mkLossState 40).

(** The same packet length with a minimum of 2^62 + 1 packets and a maximum
    of 2^63 packets. *)
Definition huge_conn : QuicConnectionStateBase :=
  mkConn 1252 (mkTransportSettings 10 (2 ^ 62 + 1) (2 ^ 63)) (mkLossState 40).

(** In congestion avoidance, 5000 bytes in flight, recovery ended at 7. *)
Definition avoiding : State := mkState 12520 12520 5000 7.

Definition ack : AckEvent := mkAckEvent (Some 9) 1252.
Definition loss : LossEvent := mkLossEvent (Some 9) 1252.

(** The same controller with 2^63 bytes in flight, and an ack for all of
    them. *)
Definition flooded : State := mkState 12520 12520 (2 ^ 63) 7.
Definition huge_ack : AckEvent := mkAckEvent (Some 9) (2 ^ 63).

(** Three packets sent, one acked, one lost, then a verified RTO. *)
Definition trace : list (QuicConnectionStateBase * Event) :=
  [ (conn, PacketSent (mkOutstandingPacket 1252));
    (conn, PacketSent (mkOutstandingPacket 1252));
    (conn, PacketSent (mkOutstandingPacket 1252));
    (conn, PacketAcked (mkAckEvent (Some 1) 1252));
    (conn, PacketLoss (mkLossEvent (Some 2) 1252));
    (conn, RTOVerified) ].

(** Acks and a loss of packets up to 40, and two more packets sent. *)
Definition epoch_trace : list (QuicConnectionStateBase * Event) :=
  [ (conn, PacketAcked (mkAckEvent (Some 12) 100));
    (conn, PacketSent (mkOutstandingPacket 1252));
    (conn, PacketLoss (mkLossEvent (Some 40) 100));
    (conn, PacketAckOrLoss (Some (mkAckEvent (Some 39) 100)) None);
    (conn, PacketSent (mkOutstandingPacket 1252)) ].

(** A packet sent and acked, a verified RTO and bytes removed: no loss. *)
Definition lossless_trace : list (QuicConnectionStateBase * Event) :=
  [ (conn, PacketSent (mkOutstandingPacket 1252));
    (conn, PacketAcked (mkAckEvent (Some 8) 1252));
    (conn, RTOVerified);
    (conn, RemoveBytesFromInflight 100) ].

(** The controller constructed for [huge_conn] once a packet has been
    sent. *)
Definition huge_sent : State := mkState u32_max 1252 1252 0.

(** [conn] with the maximum lowered to 4 packets. *)
Definition narrowed_conn : QuicConnectionStateBase :=
  mkConn 1252 (mkTransportSettings 10 2 4) (mkLossState 40).

(** Construction followed by a verified RTO. *)
Definition rto_trace : list (QuicConnectionStateBase * Event) :=
  [ (huge_conn, RTOVerified) ].

End Sample.

(** *** Accounting of the bytes in flight *)

(** The bytes an ack passed to [onPacketAckOrLoss] takes off the bytes in
    flight: none when it carries no largest acked packet number, because
    such an ack is not handed on to [onPacketAcked]. *)
Definition ack_or_loss_acked (ackEvent : option AckEvent) : Z :=
  match ackEvent with
  | Some ack =>
    if has_value (largestAckedPacket ack) then ackedBytes ack else 0
  | None => 0
  end.

Definition ack_or_loss_lost (lossEvent : option LossEvent) : Z :=
  match lossEvent with
  | Some loss => lostBytes loss
  | None => 0
  end.

(** What an event that does not fail adds to the bytes in flight. *)
Definition in_flight_change (ev : Event) : Z :=
  match ev with
  | PacketSent packet => encodedSize packet
  | PacketAcked ack => - ackedBytes ack
  | PacketLoss loss => - lostBytes loss
  | PacketAckOrLoss ackEvent lossEvent =>
    - (ack_or_loss_lost lossEvent + ack_or_loss_acked ackEvent)
  | RTOVerified => 0
  | RemoveBytesFromInflight bytes => - bytes
  end.

Fixpoint total_in_flight_change
    (trace : list (QuicConnectionStateBase * Event)) : Z :=
  match trace with
  | [] => 0
  | (_, ev) :: rest => in_flight_change ev + total_in_flight_change rest
  end.

(** *** Recovery epochs *)

(** The ack is for a packet sent before the recovery epoch ended. *)
Definition acked_inside (endOfRecovery : PacketNum) (ack : AckEvent) : Prop :=
  match largestAckedPacket ack with
  | Some largest => largest < endOfRecovery
  | None => True
  end.

(** The loss is of a packet sent before the recovery epoch ended. *)
Definition lost_inside (endOfRecovery : PacketNum) (loss : LossEvent) : Prop :=
  match largestLostPacketNum loss with
  | Some largestLost => largestLost <= endOfRecovery
  | None => True
  end.

(** The event belongs to the recovery epoch that ends at [endOfRecovery]:
    packets sent, bytes removed, and acks and losses of packets the epoch
    covers.  A verified RTO belongs to none. *)
Definition inside_epoch (endOfRecovery : PacketNum) (ev : Event) : Prop :=
  match ev with
  | PacketSent _ => True
  | PacketAcked ack => acked_inside endOfRecovery ack
  | PacketLoss loss => lost_inside endOfRecovery loss
  | PacketAckOrLoss ackEvent lossEvent =>
    match ackEvent with
    | Some ack => acked_inside endOfRecovery ack
    | None => True
    end /\
    match lossEvent with
    | Some loss => lost_inside endOfRecovery loss
    | None => True
    end
  | RTOVerified => False
  | RemoveBytesFromInflight _ => True
  end.

(** The event hands a loss to the controller. *)
Definition carries_loss (ev : Event) : bool :=
  match ev with
  | PacketLoss _ => true
  | PacketAckOrLoss _ (Some _) => true
  | _ => false
  end.

(** The byte counts an event carries are 64-bit values. *)
Definition event_u64 (ev : Event) : Prop :=
  match ev with
  | PacketSent packet => u64 (encodedSize packet)
  | PacketAcked ack => u64 (ackedBytes ack)
  | PacketLoss loss => u64 (lostBytes loss)
  | PacketAckOrLoss ackEvent lossEvent =>
    u64 (ack_or_loss_acked ackEvent) /\ u64 (ack_or_loss_lost lossEvent)
  | RTOVerified => True
  | RemoveBytesFromInflight bytes => u64 bytes
  end.

End NewReno.

(** * ClientHandshake *)

(** [enum class EncryptionLevel] *)
Module EncryptionLevel.
Inductive t : Type := Initial | Handshake | EarlyData | AppData.

Definition eqb (a b : t) : bool :=
  match a, b with
  | Initial, Initial | Handshake, Handshake
  | EarlyData, EarlyData | AppData, AppData => true
  | _, _ => false
  end.
End EncryptionLevel.

(** [enum class ClientHandshake::Phase].  Modelled from the spec: the
    declaration is in ClientHandshake.h, which is not part of the sources; the
    four phases are ordered Initial < Handshake < OneRttKeysDerived <
    Established. *)
Module Phase.
Inductive t : Type := Initial | Handshake | OneRttKeysDerived | Established.

Definition rank (p : t) : nat :=
  match p with
  | Initial => 0
  | Handshake => 1
  | OneRttKeysDerived => 2
  | Established => 3
  end.

Definition eqb (a b : t) : bool := Nat.eqb (rank a) (rank b).
Definition le (a b : t) : Prop := rank a <= rank b.
End Phase.

Module ClientHandshake.

Import Eff.
Local Open Scope eff_scope.

Definition ByteRange : Type := list Byte.byte.
Definition IOBufQueue : Type := list Byte.byte.
(** [std::unique_ptr<folly::IOBuf>]: [None] is the null pointer. *)
Definition Buf : Type := option (list Byte.byte).

(** [IOBufQueue::append] *)
Definition append (q : IOBufQueue) (data : list Byte.byte) : IOBufQueue :=
  q ++ data.

(** Modelled from the spec: the client-local error codes ([LocalErrorCode]
    is declared outside the sources). *)
Inductive LocalErrorCode : Type :=
| EARLY_DATA_REJECTED
| CONNECTION_RESET
| IDLE_TIMEOUT
| HANDSHAKE_FAILED.

Inductive Exception : Type :=
| QuicInternalException (what : string) (code : LocalErrorCode)
| OtherException (what : string).

(** [folly::exception_wrapper]: [None] when it holds no exception. *)
Definition exception_wrapper : Type := option Exception.

Inductive CipherKind : Type :=
| HandshakeWrite
| HandshakeRead
| OneRttWrite
| OneRttRead
| ZeroRttWrite.

(** Ways in which a member function fails instead of returning. *)
Inductive Failure : Type :=
| Thrown (e : Exception)   (* [error_.throw_exception()] *)
| CheckFailed              (* a CHECK does not hold *)
| EmptyOptional.           (* an empty optional is dereferenced *)

(** The member functions of [ClientHandshake] that the TLS record layer
    invokes while [processSocketData] runs. *)
Inductive Callback : Type :=
| ComputeCiphers (kind : CipherKind) (secret : ByteRange)
| RaiseError (error : exception_wrapper)
| WaitForData
| WriteDataToStream (encryptionLevel : EncryptionLevel.t) (data : Buf)
| ComputeZeroRttCipher
| ComputeOneRttCipher (earlyDataAccepted : bool).

(** The TLS library (fizz) as [ClientHandshake] uses it; none of it is part of
    the sources. *)
Class Fizz : Type := {
  (* fizz::client::State, the member state_ *)
  FizzState : Type;
  Aead : Type;
  PacketNumberCipher : Type;
  CipherSuite : Type;
  KeyScheduler : Type;
  (* getEncryptionLevelFromFizz(state.readRecordLayer()->getEncryptionLevel()) *)
  readRecordLayerLevel : FizzState -> EncryptionLevel.t;
  (* fizz::client::earlyParametersMatch(state) *)
  earlyParametersMatch : FizzState -> bool;
  (* state.earlyDataParams(), of which only the cipher is read *)
  earlyDataParams : FizzState -> option CipherSuite;
  (* state.cipher() *)
  cipher : FizzState -> option CipherSuite;
  (* state.keyScheduler() *)
  keyScheduler : FizzState -> option KeyScheduler;
  (* state.context()->getFactory()->makeKeyScheduler(cipher) *)
  makeKeyScheduler : FizzState -> CipherSuite -> KeyScheduler;
  (* FizzAead::wrap(fizz::Protocol::deriveRecordAeadWithLabel(...)) *)
  deriveRecordAeadWithLabel :
    FizzState -> KeyScheduler -> CipherSuite -> ByteRange -> string -> string
    -> Aead;
  (* cryptoFactory_->makePacketNumberCipher(secret) *)
  makePacketNumberCipher : ByteRange -> PacketNumberCipher;
  (* One run of the record layer over a read buffer: the state it moves to,
     what is left of the buffer, and the callbacks it makes, in order. *)
  recordLayer :
    FizzState -> IOBufQueue -> FizzState * IOBufQueue * list Callback
}.

(** Modelled from the spec: the crypto streams of [QuicCryptoState]
    (QuicStreamFunctions.h and the state are not part of the sources).  "Each
    level has its own ... write buffer (as a crypto stream)"; writing to a
    stream appends to it. *)
Definition QuicCryptoStream : Type := list Byte.byte.
Definition QuicCryptoState : Type := EncryptionLevel.t -> QuicCryptoStream.

(** Modelled from the spec: [getCryptoStream] (not part of the sources), the
    crypto stream of a level. *)
Definition getCryptoStream (cryptoState : QuicCryptoState)
    (encryptionLevel : EncryptionLevel.t) : QuicCryptoStream :=
  cryptoState encryptionLevel.

Definition bytes_of (data : Buf) : list Byte.byte :=
  match data with
  | Some bytes => bytes
  | None => []
  end.

(** Modelled from the spec: [writeDataToQuicStream] (not part of the
    sources) on the stream [getCryptoStream] gave: "CRYPTO bytes emitted at
    encryption level L are appended to the crypto stream for L". *)
Definition writeDataToQuicStream (cryptoState : QuicCryptoState)
    (encryptionLevel : EncryptionLevel.t) (data : Buf) : QuicCryptoState :=
  fun l =>
    if EncryptionLevel.eqb l encryptionLevel
    then getCryptoStream cryptoState l ++ bytes_of data
    else cryptoState l.

(** The exception [computeOneRttCipher] stores when the early parameters
    changed. *)
Definition early_data_rejected : Exception :=
  QuicInternalException
    "Changing parameters when early data attempted not supported"
    EARLY_DATA_REJECTED.

Definition kQuicKeyLabel : string := "quic key".
Definition kQuicIVLabel : string := "quic iv".

Section WithFizz.

Context {fizz : Fizz}.

(** The data members of [ClientHandshake]. *)
Record State : Type := mkState {
  phase_ : Phase.t;
  initialReadBuf_ : IOBufQueue;
  handshakeReadBuf_ : IOBufQueue;
  appDataReadBuf_ : IOBufQueue;
  waitForData_ : bool;
  error_ : exception_wrapper;
  handshakeWriteCipher_ : option Aead;
  handshakeReadCipher_ : option Aead;
  oneRttWriteCipher_ : option Aead;
  oneRttReadCipher_ : option Aead;
  zeroRttWriteCipher_ : option Aead;
  handshakeWriteHeaderCipher_ : option PacketNumberCipher;
  handshakeReadHeaderCipher_ : option PacketNumberCipher;
  oneRttWriteHeaderCipher_ : option PacketNumberCipher;
  oneRttReadHeaderCipher_ : option PacketNumberCipher;
  zeroRttWriteHeaderCipher_ : option PacketNumberCipher;
  zeroRttRejected_ : option bool;
  earlyDataAttempted_ : bool;
  state_ : FizzState;
  cryptoState_ : QuicCryptoState
}.

Definition set_phase (v : Phase.t) (s : State) : State :=
  mkState v (initialReadBuf_ s) (handshakeReadBuf_ s) (appDataReadBuf_ s)
    (waitForData_ s) (error_ s) (handshakeWriteCipher_ s)
    (handshakeReadCipher_ s) (oneRttWriteCipher_ s) (oneRttReadCipher_ s)
    (zeroRttWriteCipher_ s) (handshakeWriteHeaderCipher_ s)
    (handshakeReadHeaderCipher_ s) (oneRttWriteHeaderCipher_ s)
    (oneRttReadHeaderCipher_ s) (zeroRttWriteHeaderCipher_ s)
    (zeroRttRejected_ s) (earlyDataAttempted_ s) (state_ s) (cryptoState_ s).
Definition set_initialReadBuf (v : IOBufQueue) (s : State) : State :=
  mkState (phase_ s) v (handshakeReadBuf_ s) (appDataReadBuf_ s)
    (waitForData_ s) (error_ s) (handshakeWriteCipher_ s)
    (handshakeReadCipher_ s) (oneRttWriteCipher_ s) (oneRttReadCipher_ s)
    (zeroRttWriteCipher_ s) (handshakeWriteHeaderCipher_ s)
    (handshakeReadHeaderCipher_ s) (oneRttWriteHeaderCipher_ s)
    (oneRttReadHeaderCipher_ s) (zeroRttWriteHeaderCipher_ s)
    (zeroRttRejected_ s) (earlyDataAttempted_ s) (state_ s) (cryptoState_ s).
Definition set_handshakeReadBuf (v : IOBufQueue) (s : State) : State :=
  mkState (phase_ s) (initialReadBuf_ s) v (appDataReadBuf_ s) (waitForData_
    s) (error_ s) (handshakeWriteCipher_ s) (handshakeReadCipher_ s)
    (oneRttWriteCipher_ s) (oneRttReadCipher_ s) (zeroRttWriteCipher_ s)
    (handshakeWriteHeaderCipher_ s) (handshakeReadHeaderCipher_ s)
    (oneRttWriteHeaderCipher_ s) (oneRttReadHeaderCipher_ s)
    (zeroRttWriteHeaderCipher_ s) (zeroRttRejected_ s) (earlyDataAttempted_
    s) (state_ s) (cryptoState_ s).
Definition set_appDataReadBuf (v : IOBufQueue) (s : State) : State :=
  mkState (phase_ s) (initialReadBuf_ s) (handshakeReadBuf_ s) v
    (waitForData_ s) (error_ s) (handshakeWriteCipher_ s)
    (handshakeReadCipher_ s) (oneRttWriteCipher_ s) (oneRttReadCipher_ s)
    (zeroRttWriteCipher_ s) (handshakeWriteHeaderCipher_ s)
    (handshakeReadHeaderCipher_ s) (oneRttWriteHeaderCipher_ s)
    (oneRttReadHeaderCipher_ s) (zeroRttWriteHeaderCipher_ s)
    (zeroRttRejected_ s) (earlyDataAttempted_ s) (state_ s) (cryptoState_ s).
Definition set_waitForData (v : bool) (s : State) : State :=
  mkState (phase_ s) (initialReadBuf_ s) (handshakeReadBuf_ s)
    (appDataReadBuf_ s) v (error_ s) (handshakeWriteCipher_ s)
    (handshakeReadCipher_ s) (oneRttWriteCipher_ s) (oneRttReadCipher_ s)
    (zeroRttWriteCipher_ s) (handshakeWriteHeaderCipher_ s)
    (handshakeReadHeaderCipher_ s) (oneRttWriteHeaderCipher_ s)
    (oneRttReadHeaderCipher_ s) (zeroRttWriteHeaderCipher_ s)
    (zeroRttRejected_ s) (earlyDataAttempted_ s) (state_ s) (cryptoState_ s).
Definition set_error (v : exception_wrapper) (s : State) : State :=
  mkState (phase_ s) (initialReadBuf_ s) (handshakeReadBuf_ s)
    (appDataReadBuf_ s) (waitForData_ s) v (handshakeWriteCipher_ s)
    (handshakeReadCipher_ s) (oneRttWriteCipher_ s) (oneRttReadCipher_ s)
    (zeroRttWriteCipher_ s) (handshakeWriteHeaderCipher_ s)
    (handshakeReadHeaderCipher_ s) (oneRttWriteHeaderCipher_ s)
    (oneRttReadHeaderCipher_ s) (zeroRttWriteHeaderCipher_ s)
    (zeroRttRejected_ s) (earlyDataAttempted_ s) (state_ s) (cryptoState_ s).
Definition set_handshakeWriteCipher (v : option Aead) (s : State) : State :=
  mkState (phase_ s) (initialReadBuf_ s) (handshakeReadBuf_ s)
    (appDataReadBuf_ s) (waitForData_ s) (error_ s) v (handshakeReadCipher_
    s) (oneRttWriteCipher_ s) (oneRttReadCipher_ s) (zeroRttWriteCipher_ s)
    (handshakeWriteHeaderCipher_ s) (handshakeReadHeaderCipher_ s)
    (oneRttWriteHeaderCipher_ s) (oneRttReadHeaderCipher_ s)
    (zeroRttWriteHeaderCipher_ s) (zeroRttRejected_ s) (earlyDataAttempted_
    s) (state_ s) (cryptoState_ s).
Definition set_handshakeReadCipher (v : option Aead) (s : State) : State :=
  mkState (phase_ s) (initialReadBuf_ s) (handshakeReadBuf_ s)
    (appDataReadBuf_ s) (waitForData_ s) (error_ s) (handshakeWriteCipher_
    s) v (oneRttWriteCipher_ s) (oneRttReadCipher_ s) (zeroRttWriteCipher_
    s) (handshakeWriteHeaderCipher_ s) (handshakeReadHeaderCipher_ s)
    (oneRttWriteHeaderCipher_ s) (oneRttReadHeaderCipher_ s)
    (zeroRttWriteHeaderCipher_ s) (zeroRttRejected_ s) (earlyDataAttempted_
    s) (state_ s) (cryptoState_ s).
Definition set_oneRttWriteCipher (v : option Aead) (s : State) : State :=
  mkState (phase_ s) (initialReadBuf_ s) (handshakeReadBuf_ s)
    (appDataReadBuf_ s) (waitForData_ s) (error_ s) (handshakeWriteCipher_
    s) (handshakeReadCipher_ s) v (oneRttReadCipher_ s) (zeroRttWriteCipher_
    s) (handshakeWriteHeaderCipher_ s) (handshakeReadHeaderCipher_ s)
    (oneRttWriteHeaderCipher_ s) (oneRttReadHeaderCipher_ s)
    (zeroRttWriteHeaderCipher_ s) (zeroRttRejected_ s) (earlyDataAttempted_
    s) (state_ s) (cryptoState_ s).
Definition set_oneRttReadCipher (v : option Aead) (s : State) : State :=
  mkState (phase_ s) (initialReadBuf_ s) (handshakeReadBuf_ s)
    (appDataReadBuf_ s) (waitForData_ s) (error_ s) (handshakeWriteCipher_
    s) (handshakeReadCipher_ s) (oneRttWriteCipher_ s) v
    (zeroRttWriteCipher_ s) (handshakeWriteHeaderCipher_ s)
    (handshakeReadHeaderCipher_ s) (oneRttWriteHeaderCipher_ s)
    (oneRttReadHeaderCipher_ s) (zeroRttWriteHeaderCipher_ s)
    (zeroRttRejected_ s) (earlyDataAttempted_ s) (state_ s) (cryptoState_ s).
Definition set_zeroRttWriteCipher (v : option Aead) (s : State) : State :=
  mkState (phase_ s) (initialReadBuf_ s) (handshakeReadBuf_ s)
    (appDataReadBuf_ s) (waitForData_ s) (error_ s) (handshakeWriteCipher_
    s) (handshakeReadCipher_ s) (oneRttWriteCipher_ s) (oneRttReadCipher_ s)
    v (handshakeWriteHeaderCipher_ s) (handshakeReadHeaderCipher_ s)
    (oneRttWriteHeaderCipher_ s) (oneRttReadHeaderCipher_ s)
    (zeroRttWriteHeaderCipher_ s) (zeroRttRejected_ s) (earlyDataAttempted_
    s) (state_ s) (cryptoState_ s).
Definition set_handshakeWriteHeaderCipher (v : option PacketNumberCipher) (s : State) : State :=
  mkState (phase_ s) (initialReadBuf_ s) (handshakeReadBuf_ s)
    (appDataReadBuf_ s) (waitForData_ s) (error_ s) (handshakeWriteCipher_
    s) (handshakeReadCipher_ s) (oneRttWriteCipher_ s) (oneRttReadCipher_ s)
    (zeroRttWriteCipher_ s) v (handshakeReadHeaderCipher_ s)
    (oneRttWriteHeaderCipher_ s) (oneRttReadHeaderCipher_ s)
    (zeroRttWriteHeaderCipher_ s) (zeroRttRejected_ s) (earlyDataAttempted_
    s) (state_ s) (cryptoState_ s).
Definition set_handshakeReadHeaderCipher (v : option PacketNumberCipher) (s : State) : State :=
  mkState (phase_ s) (initialReadBuf_ s) (handshakeReadBuf_ s)
    (appDataReadBuf_ s) (waitForData_ s) (error_ s) (handshakeWriteCipher_
    s) (handshakeReadCipher_ s) (oneRttWriteCipher_ s) (oneRttReadCipher_ s)
    (zeroRttWriteCipher_ s) (handshakeWriteHeaderCipher_ s) v
    (oneRttWriteHeaderCipher_ s) (oneRttReadHeaderCipher_ s)
    (zeroRttWriteHeaderCipher_ s) (zeroRttRejected_ s) (earlyDataAttempted_
    s) (state_ s) (cryptoState_ s).
Definition set_oneRttWriteHeaderCipher (v : option PacketNumberCipher) (s : State) : State :=
  mkState (phase_ s) (initialReadBuf_ s) (handshakeReadBuf_ s)
    (appDataReadBuf_ s) (waitForData_ s) (error_ s) (handshakeWriteCipher_
    s) (handshakeReadCipher_ s) (oneRttWriteCipher_ s) (oneRttReadCipher_ s)
    (zeroRttWriteCipher_ s) (handshakeWriteHeaderCipher_ s)
    (handshakeReadHeaderCipher_ s) v (oneRttReadHeaderCipher_ s)
    (zeroRttWriteHeaderCipher_ s) (zeroRttRejected_ s) (earlyDataAttempted_
    s) (state_ s) (cryptoState_ s).
Definition set_oneRttReadHeaderCipher (v : option PacketNumberCipher) (s : State) : State :=
  mkState (phase_ s) (initialReadBuf_ s) (handshakeReadBuf_ s)
    (appDataReadBuf_ s) (waitForData_ s) (error_ s) (handshakeWriteCipher_
    s) (handshakeReadCipher_ s) (oneRttWriteCipher_ s) (oneRttReadCipher_ s)
    (zeroRttWriteCipher_ s) (handshakeWriteHeaderCipher_ s)
    (handshakeReadHeaderCipher_ s) (oneRttWriteHeaderCipher_ s) v
    (zeroRttWriteHeaderCipher_ s) (zeroRttRejected_ s) (earlyDataAttempted_
    s) (state_ s) (cryptoState_ s).
Definition set_zeroRttWriteHeaderCipher (v : option PacketNumberCipher) (s : State) : State :=
  mkState (phase_ s) (initialReadBuf_ s) (handshakeReadBuf_ s)
    (appDataReadBuf_ s) (waitForData_ s) (error_ s) (handshakeWriteCipher_
    s) (handshakeReadCipher_ s) (oneRttWriteCipher_ s) (oneRttReadCipher_ s)
    (zeroRttWriteCipher_ s) (handshakeWriteHeaderCipher_ s)
    (handshakeReadHeaderCipher_ s) (oneRttWriteHeaderCipher_ s)
    (oneRttReadHeaderCipher_ s) v (zeroRttRejected_ s) (earlyDataAttempted_
    s) (state_ s) (cryptoState_ s).
Definition set_zeroRttRejected (v : option bool) (s : State) : State :=
  mkState (phase_ s) (initialReadBuf_ s) (handshakeReadBuf_ s)
    (appDataReadBuf_ s) (waitForData_ s) (error_ s) (handshakeWriteCipher_
    s) (handshakeReadCipher_ s) (oneRttWriteCipher_ s) (oneRttReadCipher_ s)
    (zeroRttWriteCipher_ s) (handshakeWriteHeaderCipher_ s)
    (handshakeReadHeaderCipher_ s) (oneRttWriteHeaderCipher_ s)
    (oneRttReadHeaderCipher_ s) (zeroRttWriteHeaderCipher_ s) v
    (earlyDataAttempted_ s) (state_ s) (cryptoState_ s).
Definition set_earlyDataAttempted (v : bool) (s : State) : State :=
  mkState (phase_ s) (initialReadBuf_ s) (handshakeReadBuf_ s)
    (appDataReadBuf_ s) (waitForData_ s) (error_ s) (handshakeWriteCipher_
    s) (handshakeReadCipher_ s) (oneRttWriteCipher_ s) (oneRttReadCipher_ s)
    (zeroRttWriteCipher_ s) (handshakeWriteHeaderCipher_ s)
    (handshakeReadHeaderCipher_ s) (oneRttWriteHeaderCipher_ s)
    (oneRttReadHeaderCipher_ s) (zeroRttWriteHeaderCipher_ s)
    (zeroRttRejected_ s) v (state_ s) (cryptoState_ s).
Definition set_state (v : FizzState) (s : State) : State :=
  mkState (phase_ s) (initialReadBuf_ s) (handshakeReadBuf_ s)
    (appDataReadBuf_ s) (waitForData_ s) (error_ s) (handshakeWriteCipher_
    s) (handshakeReadCipher_ s) (oneRttWriteCipher_ s) (oneRttReadCipher_ s)
    (zeroRttWriteCipher_ s) (handshakeWriteHeaderCipher_ s)
    (handshakeReadHeaderCipher_ s) (oneRttWriteHeaderCipher_ s)
    (oneRttReadHeaderCipher_ s) (zeroRttWriteHeaderCipher_ s)
    (zeroRttRejected_ s) (earlyDataAttempted_ s) v (cryptoState_ s).
Definition set_cryptoState (v : QuicCryptoState) (s : State) : State :=
  mkState (phase_ s) (initialReadBuf_ s) (handshakeReadBuf_ s)
    (appDataReadBuf_ s) (waitForData_ s) (error_ s) (handshakeWriteCipher_
    s) (handshakeReadCipher_ s) (oneRttWriteCipher_ s) (oneRttReadCipher_ s)
    (zeroRttWriteCipher_ s) (handshakeWriteHeaderCipher_ s)
    (handshakeReadHeaderCipher_ s) (oneRttWriteHeaderCipher_ s)
    (oneRttReadHeaderCipher_ s) (zeroRttWriteHeaderCipher_ s)
    (zeroRttRejected_ s) (earlyDataAttempted_ s) (state_ s) v.

Definition CH (A : Type) : Type := M Failure State A.

(** [ClientHandshake::ClientHandshake]: a handshake in phase Initial with
    empty buffers and empty cipher slots. *)
Definition construct (state : FizzState) (cryptoState : QuicCryptoState)
    : State :=
  mkState Phase.Initial [] [] [] false None
    None None None None None None None None None None
    None false state cryptoState.

(** [if (error_) { error_.throw_exception(); }] *)
Definition throw_if_error : CH unit :=
  s <- get ;;
  match error_ s with
  | Some e => raise (Thrown e)
  | None => ret tt
  end.

(** [ClientHandshake::getOneRttWriteCipher] *)
Definition getOneRttWriteCipher : CH (option Aead) :=
  throw_if_error ;;
  s <- get ;;
  put (set_oneRttWriteCipher None s) ;;
  ret (oneRttWriteCipher_ s).

(** [ClientHandshake::getOneRttReadCipher] *)
Definition getOneRttReadCipher : CH (option Aead) :=
  throw_if_error ;;
  s <- get ;;
  put (set_oneRttReadCipher None s) ;;
  ret (oneRttReadCipher_ s).

(** [ClientHandshake::getZeroRttWriteCipher] *)
Definition getZeroRttWriteCipher : CH (option Aead) :=
  throw_if_error ;;
  s <- get ;;
  put (set_zeroRttWriteCipher None s) ;;
  ret (zeroRttWriteCipher_ s).

(** [ClientHandshake::getHandshakeReadCipher] *)
Definition getHandshakeReadCipher : CH (option Aead) :=
  throw_if_error ;;
  s <- get ;;
  put (set_handshakeReadCipher None s) ;;
  ret (handshakeReadCipher_ s).

(** [ClientHandshake::getHandshakeWriteCipher] *)
Definition getHandshakeWriteCipher : CH (option Aead) :=
  throw_if_error ;;
  s <- get ;;
  put (set_handshakeWriteCipher None s) ;;
  ret (handshakeWriteCipher_ s).

(** [ClientHandshake::getOneRttReadHeaderCipher] *)
Definition getOneRttReadHeaderCipher : CH (option PacketNumberCipher) :=
  throw_if_error ;;
  s <- get ;;
  put (set_oneRttReadHeaderCipher None s) ;;
  ret (oneRttReadHeaderCipher_ s).

(** [ClientHandshake::getOneRttWriteHeaderCipher] *)
Definition getOneRttWriteHeaderCipher : CH (option PacketNumberCipher) :=
  throw_if_error ;;
  s <- get ;;
  put (set_oneRttWriteHeaderCipher None s) ;;
  ret (oneRttWriteHeaderCipher_ s).

(** [ClientHandshake::getHandshakeReadHeaderCipher] *)
Definition getHandshakeReadHeaderCipher : CH (option PacketNumberCipher) :=
  throw_if_error ;;
  s <- get ;;
  put (set_handshakeReadHeaderCipher None s) ;;
  ret (handshakeReadHeaderCipher_ s).

(** [ClientHandshake::getHandshakeWriteHeaderCipher] *)
Definition getHandshakeWriteHeaderCipher : CH (option PacketNumberCipher) :=
  throw_if_error ;;
  s <- get ;;
  put (set_handshakeWriteHeaderCipher None s) ;;
  ret (handshakeWriteHeaderCipher_ s).

(** [ClientHandshake::getZeroRttWriteHeaderCipher] *)
Definition getZeroRttWriteHeaderCipher : CH (option PacketNumberCipher) :=
  throw_if_error ;;
  s <- get ;;
  put (set_zeroRttWriteHeaderCipher None s) ;;
  ret (zeroRttWriteHeaderCipher_ s).

(** [ClientHandshake::onRecvOneRttProtectedData] *)
Definition onRecvOneRttProtectedData : CH unit :=
  s <- get ;;
  if negb (Phase.eqb (phase_ s) Phase.Established)
  then put (set_phase Phase.Established s)
  else ret tt.

(** [ClientHandshake::getPhase] *)
Definition getPhase (s : State) : Phase.t := phase_ s.

(** Dereferencing an optional of the TLS state. *)
Definition deref {A} (o : option A) : CH A :=
  match o with
  | Some a => ret a
  | None => raise EmptyOptional
  end.

(** [ClientHandshake::buildAead] *)
Definition buildAead (kind : CipherKind) (secret : ByteRange) : CH Aead :=
  s <- get ;;
  let isEarlyTraffic :=
    match kind with ZeroRttWrite => true | _ => false end in
  cipher <-
    (if isEarlyTraffic then deref (earlyDataParams (state_ s))
     else deref (cipher (state_ s))) ;;
  keyScheduler <-
    (if isEarlyTraffic then ret (makeKeyScheduler (state_ s) cipher)
     else deref (keyScheduler (state_ s))) ;;
  ret (deriveRecordAeadWithLabel (state_ s) keyScheduler cipher secret
         kQuicKeyLabel kQuicIVLabel).

(** [ClientHandshake::computeCiphers].  The five kinds are all the kinds
    there are, so the [default] branch of the switch has no counterpart. *)
Definition computeCiphers (kind : CipherKind) (secret : ByteRange) : CH unit :=
  aead <- buildAead kind secret ;;
  let packetNumberCipher := makePacketNumberCipher secret in
  match kind with
  | HandshakeWrite =>
    modify (set_handshakeWriteCipher (Some aead)) ;;
    modify (set_handshakeWriteHeaderCipher (Some packetNumberCipher))
  | HandshakeRead =>
    modify (set_handshakeReadCipher (Some aead)) ;;
    modify (set_handshakeReadHeaderCipher (Some packetNumberCipher))
  | OneRttWrite =>
    modify (set_oneRttWriteCipher (Some aead)) ;;
    modify (set_oneRttWriteHeaderCipher (Some packetNumberCipher))
  | OneRttRead =>
    modify (set_oneRttReadCipher (Some aead)) ;;
    modify (set_oneRttReadHeaderCipher (Some packetNumberCipher))
  | ZeroRttWrite =>
    modify (set_zeroRttWriteCipher (Some aead)) ;;
    modify (set_zeroRttWriteHeaderCipher (Some packetNumberCipher))
  end.

(** [ClientHandshake::raiseError] *)
Definition raiseError (error : exception_wrapper) : CH unit :=
  modify (set_error error).

(** [ClientHandshake::waitForData] *)
Definition waitForData : CH unit :=
  modify (set_waitForData true).

(** [ClientHandshake::getReadRecordLayerEncryptionLevel] *)
Definition getReadRecordLayerEncryptionLevel (s : State) : EncryptionLevel.t :=
  readRecordLayerLevel (state_ s).

(** [ClientHandshake::writeDataToStream] *)
Definition writeDataToStream (encryptionLevel : EncryptionLevel.t) (data : Buf)
    : CH unit :=
  if EncryptionLevel.eqb encryptionLevel EncryptionLevel.AppData then
    (* Don't write 1-rtt handshake data on the client. *)
    ret tt
  else
    modify (fun s =>
      set_cryptoState
        (writeDataToQuicStream (cryptoState_ s) encryptionLevel data) s).

(** [ClientHandshake::computeZeroRttCipher] *)
Definition computeZeroRttCipher : CH unit :=
  s <- get ;;
  match earlyDataParams (state_ s) with
  | None => raise CheckFailed
  | Some _ => modify (set_earlyDataAttempted true)
  end.

(** [ClientHandshake::computeOneRttCipher] *)
Definition computeOneRttCipher (earlyDataAccepted : bool) : CH unit :=
  s <- get ;;
  if earlyDataAttempted_ s && negb earlyDataAccepted then
    if earlyParametersMatch (state_ s) then
      modify (set_zeroRttRejected (Some true)) ;;
      modify (set_phase Phase.OneRttKeysDerived)
    else
      modify (set_error
        (Some (QuicInternalException
           "Changing parameters when early data attempted not supported"
           EARLY_DATA_REJECTED)))
  else
    modify (set_phase Phase.OneRttKeysDerived).

(** A callback of the record layer, as the member function it is. *)
Definition callback (cb : Callback) : CH unit :=
  match cb with
  | ComputeCiphers kind secret => computeCiphers kind secret
  | RaiseError error => raiseError error
  | WaitForData => waitForData
  | WriteDataToStream encryptionLevel data =>
    writeDataToStream encryptionLevel data
  | ComputeZeroRttCipher => computeZeroRttCipher
  | ComputeOneRttCipher earlyDataAccepted =>
    computeOneRttCipher earlyDataAccepted
  end.

Fixpoint callbacks (cbs : list Callback) : CH unit :=
  match cbs with
  | [] => ret tt
  | cb :: rest => callback cb ;; callbacks rest
  end.

(** The three read buffers as [processSocketData] receives them by
    reference. *)
Inductive ReadBuf : Type := InitialReadBuf | HandshakeReadBuf | AppDataReadBuf.

Definition read_buf (b : ReadBuf) (s : State) : IOBufQueue :=
  match b with
  | InitialReadBuf => initialReadBuf_ s
  | HandshakeReadBuf => handshakeReadBuf_ s
  | AppDataReadBuf => appDataReadBuf_ s
  end.

Definition set_read_buf (b : ReadBuf) (q : IOBufQueue) (s : State) : State :=
  match b with
  | InitialReadBuf => set_initialReadBuf q s
  | HandshakeReadBuf => set_handshakeReadBuf q s
  | AppDataReadBuf => set_appDataReadBuf q s
  end.

Definition buf_of_level (encryptionLevel : EncryptionLevel.t) : ReadBuf :=
  match encryptionLevel with
  | EncryptionLevel.Initial => InitialReadBuf
  | EncryptionLevel.Handshake => HandshakeReadBuf
  | EncryptionLevel.EarlyData | EncryptionLevel.AppData => AppDataReadBuf
  end.

(** [processSocketData(queue)]: the record layer consumes from the queue,
    moves its own state on and calls back into the handshake. *)
Definition processSocketData (b : ReadBuf) : CH unit :=
  s <- get ;;
  let '(state', rest, cbs) := recordLayer (state_ s) (read_buf b s) in
  put (set_read_buf b rest (set_state state' s)) ;;
  callbacks cbs.

(** The loop [while (!waitForData_) { ... }] of [doHandshake].  [None] when
    the loop has not ended within [fuel] turns. *)
Fixpoint doHandshake_loop (fuel : nat) (s : State)
    : option (Outcome Failure State unit) :=
  if waitForData_ s then Some (Ok tt s)
  else
    match fuel with
    | O => None
    | S fuel' =>
      match (processSocketData
               (buf_of_level (getReadRecordLayerEncryptionLevel s)) ;;
             throw_if_error) s with
      | Ok _ s' => doHandshake_loop fuel' s'
      | Failed e s' => Some (Failed e s')
      end
    end.

(** [ClientHandshake::doHandshake] *)
Definition doHandshake (fuel : nat) (data : Buf)
    (encryptionLevel : EncryptionLevel.t) (s : State)
    : option (Outcome Failure State unit) :=
  match data with
  | None => Some (Ok tt s)
  | Some bytes =>
    let s1 :=
      if Phase.eqb (phase_ s) Phase.Initial
      then set_phase Phase.Handshake s else s in
    let b := buf_of_level encryptionLevel in
    let s2 := set_read_buf b (append (read_buf b s1) bytes) s1 in
    let s3 := set_waitForData false s2 in
    doHandshake_loop fuel s3
  end.

(** *** Sequences of operations on the phase *)

Inductive Operation : Type :=
| DoHandshake (data : Buf) (encryptionLevel : EncryptionLevel.t)
| CallComputeOneRttCipher (earlyDataAccepted : bool)
| OnRecvOneRttProtectedData.

(** The state an operation leaves the handshake in, whether it returned or
    threw; [None] when [doHandshake] has not ended within [fuel] turns. *)
Definition perform (fuel : nat) (op : Operation) (s : State) : option State :=
  match op with
  | DoHandshake data encryptionLevel =>
    option_map final (doHandshake fuel data encryptionLevel s)
  | CallComputeOneRttCipher earlyDataAccepted =>
    Some (final (computeOneRttCipher earlyDataAccepted s))
  | OnRecvOneRttProtectedData =>
    Some (final (onRecvOneRttProtectedData s))
  end.

Fixpoint perform_all (fuel : nat) (ops : list Operation) (s : State)
    : option State :=
  match ops with
  | [] => Some s
  | op :: rest =>
    match perform fuel op s with
    | Some s' => perform_all fuel rest s'
    | None => None
    end
  end.

(** *** Cipher slots by kind *)

(** The AEAD slot [computeCiphers] fills for a kind of cipher. *)
Definition aead_slot (kind : CipherKind) (s : State) : option Aead :=
  match kind with
  | HandshakeWrite => handshakeWriteCipher_ s
  | HandshakeRead => handshakeReadCipher_ s
  | OneRttWrite => oneRttWriteCipher_ s
  | OneRttRead => oneRttReadCipher_ s
  | ZeroRttWrite => zeroRttWriteCipher_ s
  end.

(** The header cipher slot [computeCiphers] fills for a kind of cipher. *)
Definition header_slot (kind : CipherKind) (s : State)
    : option PacketNumberCipher :=
  match kind with
  | HandshakeWrite => handshakeWriteHeaderCipher_ s
  | HandshakeRead => handshakeReadHeaderCipher_ s
  | OneRttWrite => oneRttWriteHeaderCipher_ s
  | OneRttRead => oneRttReadHeaderCipher_ s
  | ZeroRttWrite => zeroRttWriteHeaderCipher_ s
  end.

(** The getter that empties the AEAD slot of a kind. *)
Definition aead_getter (kind : CipherKind) : CH (option Aead) :=
  match kind with
  | HandshakeWrite => getHandshakeWriteCipher
  | HandshakeRead => getHandshakeReadCipher
  | OneRttWrite => getOneRttWriteCipher
  | OneRttRead => getOneRttReadCipher
  | ZeroRttWrite => getZeroRttWriteCipher
  end.

(** The getter that empties the header cipher slot of a kind. *)
Definition header_getter (kind : CipherKind)
    : CH (option PacketNumberCipher) :=
  match kind with
  | HandshakeWrite => getHandshakeWriteHeaderCipher
  | HandshakeRead => getHandshakeReadHeaderCipher
  | OneRttWrite => getOneRttWriteHeaderCipher
  | OneRttRead => getOneRttReadHeaderCipher
  | ZeroRttWrite => getZeroRttWriteHeaderCipher
  end.

(** Every cipher getter throws [e] and leaves the handshake as it is. *)
Definition every_getter_throws (e : Exception) (s : State) : Prop :=
  forall kind : CipherKind,
    aead_getter kind s = Failed (Thrown e) s /\
    header_getter kind s = Failed (Thrown e) s.

(** What an exception that is not the stored error tells about the TLS
    state it was raised in: the CHECK of [computeZeroRttCipher] failed, or
    [buildAead] dereferenced an empty value. *)
Definition raised_by_callback (e : Failure) (s : State) : Prop :=
  match e with
  | Thrown _ => False
  | CheckFailed => earlyDataParams (state_ s) = None
  | EmptyOptional =>
    earlyDataParams (state_ s) = None \/
    cipher (state_ s) = None \/
    keyScheduler (state_ s) = None
  end.

End WithFizz.

Arguments State : clear implicits.
Arguments State {fizz}.

(** *** What the specification says of the handshake *)

(** "No operation moves the phase from a later value to an earlier one",
    for one operation from one state. *)
Definition keeps_phase_order {fizz : Fizz} (fuel : nat) (op : Operation)
    (s : State) : Prop :=
  forall s', perform fuel op s = Some s' -> Phase.le (phase_ s) (phase_ s').

(** What a cipher getter owes: with an error stored (by [raiseError] in
    particular) it throws that error and changes nothing; with none stored it
    returns what the slot holds and leaves the slot empty, so that asking
    again returns nothing. *)
Definition getter_contract {fizz : Fizz} {A : Type} (getter : CH (option A))
    (slot : State -> option A) : Prop :=
  forall s : State,
    (forall e, error_ s = Some e -> getter s = Failed (Thrown e) s) /\
    (forall e,
       let s' := final (raiseError (Some e) s) in
       getter s' = Failed (Thrown e) s') /\
    (error_ s = None ->
       exists s1,
         getter s = Ok (slot s) s1 /\
         slot s1 = None /\
         error_ s1 = None /\
         getter s1 = Ok None s1).

(** A TLS library that plays back a script: each run of the record layer
    consumes the whole buffer and makes the callbacks of the next entry of
    the script; at the end of the script it waits for data. *)
Module Scripted.

Record TlsState : Type := mkTls {
  level : EncryptionLevel.t;
  paramsMatch : bool;
  earlyData : bool;
  script : list (list Callback)
}.

Definition run (st : TlsState) (q : IOBufQueue)
    : TlsState * IOBufQueue * list Callback :=
  match script st with
  | [] => (st, q, [WaitForData])
  | cbs :: rest =>
    (mkTls (level st) (paramsMatch st) (earlyData st) rest, [], cbs)
  end.

#[export] Instance fizz : Fizz := {|
  FizzState := TlsState;
  Aead := ByteRange;
  PacketNumberCipher := ByteRange;
  CipherSuite := unit;
  KeyScheduler := unit;
  readRecordLayerLevel := level;
  earlyParametersMatch := paramsMatch;
  earlyDataParams := fun st => if earlyData st then Some tt else None;
  cipher := fun _ => Some tt;
  keyScheduler := fun _ => Some tt;
  makeKeyScheduler := fun _ _ => tt;
  deriveRecordAeadWithLabel := fun _ _ _ secret _ _ => secret;
  makePacketNumberCipher := fun secret => secret;
  recordLayer := run
|}.

Definition no_streams : QuicCryptoState := fun _ => [].

Definition secret : ByteRange := [Byte.x01; Byte.x02].

(** A handshake just constructed; the server will finish in one flight,
    without early data. *)
Definition fresh : State (fizz := fizz) :=
  construct
    (mkTls EncryptionLevel.Initial true false
       [[ComputeCiphers HandshakeRead secret;
         ComputeCiphers OneRttRead secret;
         ComputeOneRttCipher false];
        [WaitForData]])
    no_streams.

(** The same handshake once 1-RTT protected data has been received. *)
Definition established : State (fizz := fizz) :=
  set_phase Phase.Established fresh.

(** A first flight of the server arriving at the Initial level. *)
Definition first_flight : Operation :=
  DoHandshake (Some [Byte.x16; Byte.x03]) EncryptionLevel.Initial.

(** The handshake after that flight: both read ciphers installed, the
    script played to its end, the phase at OneRttKeysDerived. *)
Definition derived : State (fizz := fizz) :=
  mkState Phase.OneRttKeysDerived [] [] [] true None
    None (Some secret) None (Some secret) None
    None (Some secret) None (Some secret) None
    None false
    (mkTls EncryptionLevel.Initial true false [])
    no_streams.

(** A handshake whose record layer asks for the 0-RTT write ciphers while
    the TLS state has no early data parameters. *)
Definition unprepared : State (fizz := fizz) :=
  construct
    (mkTls EncryptionLevel.Initial true false
       [[ComputeCiphers ZeroRttWrite secret]])
    no_streams.

(** A handshake that attempted 0-RTT, with or without the early parameters
    still matching. *)
Definition attempted (stillMatching : bool) : State (fizz := fizz) :=
  set_earlyDataAttempted true
    (construct (mkTls EncryptionLevel.Handshake stillMatching true [])
       no_streams).

End Scripted.

End ClientHandshake.

(** * Properties of NewReno *)

Section NewRenoFacts.

Import Eff NewReno.
Local Open Scope Z_scope.

Lemma wrap64_u64 x : u64 (wrap64 x).
Proof. unfold u64, wrap64, u64_modulus. apply Z.mod_pos_bound. lia. Qed.

Lemma wrap64_id x : u64 x -> wrap64 x = x.
Proof. unfold u64, wrap64. intros H. apply Z.mod_small. exact H. Qed.

Lemma u64_max_modulus : u64_max = u64_modulus - 1.
Proof. reflexivity. Qed.

Lemma sub64_exact a b : u64 a -> 0 <= b <= a -> sub64 a b = a - b.
Proof. unfold sub64, u64. intros Ha Hb. apply wrap64_id. unfold u64. lia. Qed.

Lemma add64_exact a b : 0 <= a -> 0 <= b -> a + b <= u64_max -> add64 a b = a + b.
Proof.
  unfold add64. intros Ha Hb Hab. apply wrap64_id.
  unfold u64. rewrite u64_max_modulus in Hab. lia.
Qed.

Lemma mul64_exact a b : 0 <= a -> 0 <= b -> a * b <= u64_max -> mul64 a b = a * b.
Proof.
  unfold mul64. intros Ha Hb Hab. apply wrap64_id.
  unfold u64. rewrite u64_max_modulus in Hab. nia.
Qed.

Lemma lower_limit_u64 conn : u64 (lower_limit conn).
Proof. apply wrap64_u64. Qed.

Lemma upper_limit_u64 conn : u64 (upper_limit conn).
Proof. apply wrap64_u64. Qed.

Lemma bound_to_eq conn c :
  bound_to conn c = Z.max (Z.min c (upper_limit conn)) (lower_limit conn).
Proof. reflexivity. Qed.

Lemma bound_to_u64 conn c : u64 c -> u64 (bound_to conn c).
Proof.
  rewrite bound_to_eq. intros Hc.
  pose proof (lower_limit_u64 conn) as Hl.
  pose proof (upper_limit_u64 conn) as Hu.
  unfold u64 in *. lia.
Qed.

Lemma bound_to_idem conn c : bound_to conn (bound_to conn c) = bound_to conn c.
Proof. rewrite !bound_to_eq. lia. Qed.

Lemma bound_to_lower conn : bound_to conn (lower_limit conn) = lower_limit conn.
Proof. rewrite bound_to_eq. lia. Qed.

Lemma bound_to_within conn c :
  lower_limit conn <= upper_limit conn ->
  lower_limit conn <= bound_to conn c <= upper_limit conn.
Proof. rewrite bound_to_eq. lia. Qed.

End NewRenoFacts.

Section NewRenoEvents.

Import Eff NewReno.
Local Open Scope Z_scope.

Ltac run_member :=
  unfold onPacketAcked, onPacketLoss, onPacketSent, onRemoveBytesFromInflight,
    onRTOVerified, checked, DCHECK, has_value,
    subtractAndCheckUnderflow, addAndCheckOverflow,
    bind, get, put, modify, raise, ret;
  cbn beta iota.

Ltac concrete :=
  vm_compute; first [reflexivity | discriminate | intuition congruence].

Ltac fields :=
  cbn [cwndBytes_ ssthresh_ bytesInFlight_ endOfRecovery_
       set_bytesInFlight set_cwndBytes set_ssthresh set_endOfRecovery].

(** C6. [getWritableBytes] returns [max(0, cwnd_bytes - bytes_in_flight)] for
    all 64-bit values of the two counters, and so exactly 0 whenever
    [bytes_in_flight > cwnd_bytes]. *)
Theorem getWritableBytes_is_max (s : State) :
  u64 (cwndBytes_ s) -> u64 (bytesInFlight_ s) ->
  getWritableBytes s = Z.max 0 (cwndBytes_ s - bytesInFlight_ s) /\
  (bytesInFlight_ s > cwndBytes_ s -> getWritableBytes s = 0).
Proof.
  intros Hc Hb. unfold getWritableBytes.
  destruct (bytesInFlight_ s >? cwndBytes_ s) eqn:E.
  - apply Z.gtb_lt in E. split; [lia | reflexivity].
  - assert (bytesInFlight_ s <= cwndBytes_ s) as Hle.
    { destruct (Z.gtb_spec (bytesInFlight_ s) (cwndBytes_ s)); [discriminate | lia]. }
    unfold u64 in Hb. rewrite sub64_exact by (auto; lia). split; lia.
Qed.

Lemma getWritableBytes_is_max_witness :
  u64 (cwndBytes_ (mkState 3000 1000 2500 0)) /\
  u64 (bytesInFlight_ (mkState 3000 1000 2500 0)) /\
  getWritableBytes (mkState 3000 1000 2500 0) = 0.
Proof.
  assert (u64 1000 /\ u64 2500) as [H1 H2] by (unfold u64, u64_modulus; lia).
  split; [exact H1 | split; [exact H2 |]].
  apply (getWritableBytes_is_max (mkState 3000 1000 2500 0) H1 H2).
  cbn [cwndBytes_ bytesInFlight_]. lia.
Defined.

(** C1, as amended.  [onPacketAcked] on 64-bit counters and an ack that
    carries a largest acked packet number.  It first takes the acked bytes
    off [bytes_in_flight] (and fails there, changing nothing, when they
    exceed it).  Then: below [end_of_recovery] nothing else changes;
    otherwise the window grows by the acked bytes when
    [cwnd_bytes < ssthresh], and by [P / cwnd_bytes] when
    [cwnd_bytes >= ssthresh], where [P] is the 64-bit product
    [kDefaultUDPSendPacketLen * acked_bytes], the exact product whenever
    that fits 64 bits; the sum is clamped.  A sum beyond 64 bits is refused
    by the overflow check, and a window of 0 cannot be divided by. *)
Theorem onPacketAcked_spec (k : Z) (conn : QuicConnectionStateBase)
    (ack : AckEvent) (s : State) (largest : PacketNum) :
  u64 (cwndBytes_ s) ->
  u64 (bytesInFlight_ s) ->
  u64 (ackedBytes ack) ->
  largestAckedPacket ack = Some largest ->
  let acked := ackedBytes ack in
  let cwnd := cwndBytes_ s in
  let out := onPacketAcked k conn ack s in
  let s1 := set_bytesInFlight (bytesInFlight_ s - acked) s in
  let grown (by_ : Z) :=
    if cwnd + by_ <=? u64_max
    then Ok tt (set_cwndBytes (bound_to conn (cwnd + by_)) s1)
    else Failed Overflow s1 in
  (bytesInFlight_ s < acked -> out = Failed Underflow s) /\
  (acked <= bytesInFlight_ s ->
     (largest < endOfRecovery_ s -> out = Ok tt s1) /\
     (endOfRecovery_ s <= largest ->
        (cwnd < ssthresh_ s -> out = grown acked) /\
        (ssthresh_ s <= cwnd -> cwnd <> 0 ->
           out = grown (mul64 k acked / cwnd)) /\
        (ssthresh_ s <= cwnd -> cwnd = 0 ->
           out = Failed DivisionByZero s1))) /\
  (0 <= k -> k * acked <= u64_max ->
     mul64 k acked / cwnd = k * acked / cwnd /\
     bound_to conn (cwnd + mul64 k acked / cwnd)
       = avoidance_window k conn ack s).
Proof.
  intros Hc Hb Ha Hl acked cwnd out s1 grown.
  assert (0 <= acked) as Ha0 by (unfold u64 in Ha; subst acked; lia).
  assert (0 <= cwnd) as Hc0 by (unfold u64 in Hc; subst cwnd; lia).
  subst out. run_member. rewrite Hl. cbn beta iota. fold acked.
  split; [| split].
  - intros Hlt. apply Z.ltb_lt in Hlt. rewrite Hlt. reflexivity.
  - intros Hle.
    assert ((bytesInFlight_ s <? acked) = false) as E by (apply Z.ltb_ge; lia).
    rewrite E. cbn beta iota.
    rewrite sub64_exact by (auto; lia). fold s1.
    change (endOfRecovery_ s1) with (endOfRecovery_ s).
    change (ssthresh_ s1) with (ssthresh_ s).
    change (cwndBytes_ s1) with cwnd.
    assert (forall by_, 0 <= by_ ->
      match
        match (if u64_max - by_ <? cwnd
               then @inl Failure Z Overflow else inr (add64 cwnd by_)) with
        | inl e => fun s3 : State => Failed e s3
        | inr v => fun _ : State => Ok tt (set_cwndBytes v s1)
        end s1
      with
      | Ok _ s' => Ok tt (set_cwndBytes (bound_to conn (cwndBytes_ s')) s')
      | Failed e s' => @Failed Failure State unit e s'
      end = grown by_) as Hgrow.
    { intros by_ Hby. unfold grown.
      destruct (cwnd + by_ <=? u64_max) eqn:E2.
      - apply Z.leb_le in E2.
        assert ((u64_max - by_ <? cwnd) = false) as E3 by (apply Z.ltb_ge; lia).
        rewrite E3. rewrite add64_exact by lia. reflexivity.
      - apply Z.leb_gt in E2.
        assert ((u64_max - by_ <? cwnd) = true) as E3 by (apply Z.ltb_lt; lia).
        rewrite E3. reflexivity. }
    split.
    + intros Hrec. apply Z.ltb_lt in Hrec. rewrite Hrec. reflexivity.
    + intros Hrec.
      assert ((largest <? endOfRecovery_ s) = false) as E1 by (apply Z.ltb_ge; lia).
      rewrite E1.
      split; [| split].
      * intros Hss. apply Z.ltb_lt in Hss. rewrite Hss.
        exact (Hgrow acked Ha0).
      * intros Hss Hnz.
        assert ((cwnd <? ssthresh_ s) = false) as E2 by (apply Z.ltb_ge; lia).
        assert ((cwnd =? 0) = false) as E3 by (apply Z.eqb_neq; exact Hnz).
        rewrite E2, E3.
        apply Hgrow. apply Z.div_pos; [| lia].
        pose proof (wrap64_u64 (k * acked)) as Hw. unfold u64 in Hw.
        unfold mul64. lia.
      * intros Hss Hz.
        assert ((cwnd <? ssthresh_ s) = false) as E2 by (apply Z.ltb_ge; lia).
        rewrite E2, Hz. reflexivity.
  - intros Hk Hfit. unfold avoidance_window. fold acked. fold cwnd.
    rewrite mul64_exact by lia. split; reflexivity.
Qed.

Lemma sample_avoiding_valid : valid Sample.conn Sample.avoiding.
Proof.
  unfold valid, u64, u64_modulus. cbn [cwndBytes_ bytesInFlight_ Sample.avoiding].
  split; [lia | split; [lia | vm_compute; reflexivity]].
Qed.

Lemma onPacketAcked_spec_witness :
  u64 (cwndBytes_ Sample.avoiding) /\
  u64 (bytesInFlight_ Sample.avoiding) /\
  u64 (ackedBytes Sample.ack) /\
  largestAckedPacket Sample.ack = Some 9 /\
  onPacketAcked 1252 Sample.conn Sample.ack Sample.avoiding
    = Ok tt (mkState 12520 12645 3748 7).
Proof.
  assert (u64 (cwndBytes_ Sample.avoiding)) as Hc
    by (unfold u64, u64_modulus; cbn [cwndBytes_ Sample.avoiding]; lia).
  assert (u64 (bytesInFlight_ Sample.avoiding)) as Hb
    by (unfold u64, u64_modulus; cbn [bytesInFlight_ Sample.avoiding]; lia).
  assert (u64 (ackedBytes Sample.ack)) as Ha
    by (unfold u64, u64_modulus; cbn [ackedBytes Sample.ack]; lia).
  split; [exact Hc | split; [exact Hb | split; [exact Ha | split; [reflexivity |]]]].
  destruct (onPacketAcked_spec 1252 Sample.conn Sample.ack Sample.avoiding 9
              Hc Hb Ha eq_refl) as [_ [H _]].
  assert (ackedBytes Sample.ack <= bytesInFlight_ Sample.avoiding) as H1
    by concrete.
  destruct (H H1) as [_ H2].
  assert (endOfRecovery_ Sample.avoiding <= 9) as H3 by concrete.
  destruct (H2 H3) as [_ [H4 _]].
  rewrite H4; [reflexivity | concrete | concrete].
Defined.

(** C1 as stated fails once the product wraps.  With 2^63 bytes in flight
    all acked at once, in congestion avoidance with a window of 12520 bytes,
    the 64-bit product [1252 * 2^63] is 0: the window stays at 12520, where
    [floor(1252 * 2^63 / 12520)] more bytes would have taken it to the upper
    limit of 2504000. *)
Lemma onPacketAcked_counterexample :
  u64 (ackedBytes Sample.huge_ack) /\
  valid Sample.conn Sample.flooded /\
  ssthresh_ Sample.flooded <= cwndBytes_ Sample.flooded /\
  endOfRecovery_ Sample.flooded <= 9 /\
  onPacketAcked 1252 Sample.conn Sample.huge_ack Sample.flooded
    = Ok tt (mkState 12520 12520 0 7) /\
  avoidance_window 1252 Sample.conn Sample.huge_ack Sample.flooded = 2504000 /\
  cwndBytes_ (final (onPacketAcked 1252 Sample.conn Sample.huge_ack
                       Sample.flooded))
    <> avoidance_window 1252 Sample.conn Sample.huge_ack Sample.flooded.
Proof.
  assert (avoidance_window 1252 Sample.conn Sample.huge_ack Sample.flooded
          = 2504000) as Hclaimed by (vm_compute; reflexivity).
  assert (onPacketAcked 1252 Sample.conn Sample.huge_ack Sample.flooded
          = Ok tt (mkState 12520 12520 0 7)) as Hrun by (vm_compute; reflexivity).
  repeat match goal with |- _ /\ _ => split end;
    try exact Hclaimed; try exact Hrun.
  - concrete.
  - unfold valid. concrete.
  - concrete.
  - concrete.
  - rewrite Hrun, Hclaimed. cbn [final cwndBytes_]. lia.
Qed.

Lemma shr64_half c : shr64 c kRenoLossReductionFactorShift = c / 2.
Proof.
  unfold shr64, kRenoLossReductionFactorShift.
  rewrite Z.shiftr_div_pow2 by lia. reflexivity.
Qed.

(** C2. [onPacketLoss] on 64-bit counters and a loss that carries a largest
    lost packet number.  It takes the lost bytes off [bytes_in_flight], and
    fails there, changing nothing, when they exceed it.  Exactly when
    [end_of_recovery < largest_lost] it starts a new recovery epoch:
    [end_of_recovery] becomes the largest packet number sent, [cwnd_bytes]
    becomes [cwnd_bytes / 2] clamped, that is cut down to [max_cwnd] and then
    raised to [min_cwnd], and [ssthresh] the new [cwnd_bytes]; otherwise
    nothing but [bytes_in_flight] changes.  [min_cwnd] and [max_cwnd] are the
    64-bit products of [min_cwnd_in_mss] and [max_cwnd_in_mss] with
    [udp_payload_size]; [min_cwnd] is the product of the integers whenever
    that fits 64 bits.  The new window is [max(min_cwnd, cwnd_bytes / 2)]
    whenever [cwnd_bytes / 2] is not above [max_cwnd], and whenever the
    window before the loss was clamped under the same settings. *)
Theorem onPacketLoss_spec (conn : QuicConnectionStateBase) (loss : LossEvent)
    (s : State) (largestLost : PacketNum) :
  u64 (cwndBytes_ s) ->
  u64 (bytesInFlight_ s) ->
  u64 (lostBytes loss) ->
  largestLostPacketNum loss = Some largestLost ->
  let lost := lostBytes loss in
  let out := onPacketLoss conn loss s in
  let min_cwnd := lower_limit conn in
  let max_cwnd := upper_limit conn in
  let halved := Z.max min_cwnd (Z.min (cwndBytes_ s / 2) max_cwnd) in
  (bytesInFlight_ s < lost -> out = Failed Underflow s) /\
  (lost <= bytesInFlight_ s ->
     (endOfRecovery_ s < largestLost ->
        out = Ok tt (mkState halved halved (bytesInFlight_ s - lost)
                       (largestSent (lossState conn)))) /\
     (largestLost <= endOfRecovery_ s ->
        out = Ok tt (set_bytesInFlight (bytesInFlight_ s - lost) s))) /\
  (cwndBytes_ s / 2 <= max_cwnd ->
     halved = Z.max min_cwnd (cwndBytes_ s / 2)) /\
  (bound_to conn (cwndBytes_ s) = cwndBytes_ s ->
     halved = Z.max min_cwnd (cwndBytes_ s / 2)) /\
  (0 <= minCwndInMss (transportSettings conn) ->
   0 <= udpSendPacketLen conn ->
   minCwndInMss (transportSettings conn) * udpSendPacketLen conn <= u64_max ->
   min_cwnd = minCwndInMss (transportSettings conn) * udpSendPacketLen conn).
Proof.
  intros Hc Hb Ha Hl lost out min_cwnd max_cwnd halved.
  assert (0 <= lost) as Ha0 by (unfold u64 in Ha; subst lost; lia).
  assert (0 <= cwndBytes_ s / 2 <= cwndBytes_ s) as Hhalf.
  { unfold u64 in Hc. split.
    - apply Z.div_pos; lia.
    - apply Z.div_le_upper_bound; lia. }
  subst out. run_member. rewrite Hl. cbn beta iota. fold lost.
  split; [| split; [| split; [| split;
    [| intros; apply mul64_exact; assumption]]]].
  - intros Hlt. apply Z.ltb_lt in Hlt. rewrite Hlt. reflexivity.
  - intros Hle.
    assert ((bytesInFlight_ s <? lost) = false) as E by (apply Z.ltb_ge; lia).
    rewrite E. cbn beta iota. rewrite sub64_exact by (auto; lia).
    fields. split.
    + intros Hnew. apply Z.ltb_lt in Hnew. rewrite Hnew. fields.
      rewrite shr64_half.
      rewrite bound_to_eq, Z.max_comm. reflexivity.
    + intros Hold.
      assert ((endOfRecovery_ s <? largestLost) = false) as E1
        by (apply Z.ltb_ge; lia).
      rewrite E1. reflexivity.
  - intros Hfit. subst halved. lia.
  - intros Hfix. subst halved min_cwnd max_cwnd.
    rewrite bound_to_eq in Hfix. lia.
Qed.

Lemma onPacketLoss_spec_witness :
  u64 (cwndBytes_ Sample.avoiding) /\
  u64 (bytesInFlight_ Sample.avoiding) /\
  u64 (lostBytes Sample.loss) /\
  largestLostPacketNum Sample.loss = Some 9 /\
  onPacketLoss Sample.conn Sample.loss Sample.avoiding
    = Ok tt (mkState 6260 6260 3748 40).
Proof.
  assert (u64 (cwndBytes_ Sample.avoiding)) as Hc by concrete.
  assert (u64 (bytesInFlight_ Sample.avoiding)) as Hb by concrete.
  assert (u64 (lostBytes Sample.loss)) as Ha
    by (unfold u64, u64_modulus; cbn [lostBytes Sample.loss]; lia).
  split; [exact Hc | split; [exact Hb | split; [exact Ha | split;
    [reflexivity |]]]].
  destruct (onPacketLoss_spec Sample.conn Sample.loss Sample.avoiding 9
              Hc Hb Ha eq_refl) as [_ [H _]].
  assert (lostBytes Sample.loss <= bytesInFlight_ Sample.avoiding) as H1
    by concrete.
  destruct (H H1) as [H2 _].
  rewrite H2; [reflexivity | concrete].
Defined.

(** With a minimum of 2^62 + 1 packets of 1252 bytes the 64-bit product
    [min_cwnd_in_mss * udp_payload_size] wraps to 1252: on the controller
    constructed for these settings, with one packet sent, a loss that opens
    a recovery epoch leaves a window of 1252 bytes, which is not
    [max(min_cwnd, cwnd_bytes / 2)] and is below
    [min_cwnd_in_mss * udp_payload_size]. *)
Lemma onPacketLoss_counterexample :
  run 1252 [(Sample.huge_conn, PacketSent (mkOutstandingPacket 1252))]
    (construct Sample.huge_conn) = Some Sample.huge_sent /\
  valid Sample.huge_conn Sample.huge_sent /\
  u64 (lostBytes Sample.loss) /\
  largestLostPacketNum Sample.loss = Some 9 /\
  endOfRecovery_ Sample.huge_sent < 9 /\
  lostBytes Sample.loss <= bytesInFlight_ Sample.huge_sent /\
  onPacketLoss Sample.huge_conn Sample.loss Sample.huge_sent
    = Ok tt (mkState 1252 1252 0 40) /\
  halved_window Sample.huge_conn Sample.huge_sent = (2 ^ 62 + 1) * 1252 /\
  cwndBytes_ (final (onPacketLoss Sample.huge_conn Sample.loss
                       Sample.huge_sent))
    <> halved_window Sample.huge_conn Sample.huge_sent /\
  cwndBytes_ (final (onPacketLoss Sample.huge_conn Sample.loss
                       Sample.huge_sent))
    < minCwndInMss (transportSettings Sample.huge_conn)
      * udpSendPacketLen Sample.huge_conn.
Proof.
  assert (halved_window Sample.huge_conn Sample.huge_sent
          = (2 ^ 62 + 1) * 1252) as Hclaimed by (vm_compute; reflexivity).
  assert (onPacketLoss Sample.huge_conn Sample.loss Sample.huge_sent
          = Ok tt (mkState 1252 1252 0 40)) as Hrun
    by (vm_compute; reflexivity).
  repeat match goal with |- _ /\ _ => split end;
    try exact Hclaimed; try exact Hrun.
  - vm_compute. reflexivity.
  - unfold valid. concrete.
  - concrete.
  - reflexivity.
  - concrete.
  - concrete.
  - rewrite Hrun, Hclaimed. cbn [final cwndBytes_]. lia.
  - rewrite Hrun. cbn [final cwndBytes_]. vm_compute. reflexivity.
Qed.

(** The window is cut down to the upper bound before it is raised to the
    lower one: once the maximum has been lowered to 4 packets, a loss on a
    window of 10 packets leaves 4 packets, not the 5 of
    [max(min_cwnd, cwnd_bytes / 2)]. *)
Example onPacketLoss_after_lowered_maximum :
  onPacketLoss Sample.narrowed_conn Sample.loss Sample.avoiding
    = Ok tt (mkState 5008 5008 3748 40) /\
  halved_window Sample.narrowed_conn Sample.avoiding = 6260.
Proof. split; vm_compute; reflexivity. Qed.

(** *** The window on event traces *)

Lemma same_limits_bound_to conn c x :
  same_limits conn c -> bound_to c x = bound_to conn x.
Proof.
  intros (Hl & Hmin & Hmax). unfold bound_to. rewrite Hl, Hmin, Hmax. reflexivity.
Qed.

Lemma same_limits_lower conn c :
  same_limits conn c -> lower_limit c = lower_limit conn.
Proof.
  intros (Hl & Hmin & _). unfold lower_limit. rewrite Hl, Hmin. reflexivity.
Qed.

Lemma valid_set_bytesInFlight conn s v :
  valid conn s -> valid conn (set_bytesInFlight (wrap64 v) s).
Proof.
  intros (Hc & Hb & Hfix). unfold valid. fields.
  split; [exact Hc | split; [apply wrap64_u64 | exact Hfix]].
Qed.

Lemma valid_set_cwndBytes conn s v :
  valid conn s -> u64 v -> bound_to conn v = v -> valid conn (set_cwndBytes v s).
Proof.
  intros (Hc & Hb & Hfix) Hv Hvfix. unfold valid. fields.
  split; [exact Hv | split; [exact Hb | exact Hvfix]].
Qed.

Lemma valid_clamped conn s v :
  valid conn s -> valid conn (set_cwndBytes (bound_to conn (wrap64 v)) s).
Proof.
  intros Hs. apply valid_set_cwndBytes; [exact Hs | |].
  - apply bound_to_u64, wrap64_u64.
  - apply bound_to_idem.
Qed.

Lemma valid_onPacketSent conn packet s :
  valid conn s -> valid conn (final (onPacketSent packet s)).
Proof.
  intros Hs. run_member.
  destruct (u64_max - encodedSize packet <? bytesInFlight_ s); cbn [final].
  - exact Hs.
  - apply valid_set_bytesInFlight, Hs.
Qed.

Lemma valid_onRemoveBytesFromInflight conn bytes s :
  valid conn s -> valid conn (final (onRemoveBytesFromInflight bytes s)).
Proof.
  intros Hs. run_member.
  destruct (bytesInFlight_ s <? bytes); cbn [final].
  - exact Hs.
  - apply valid_set_bytesInFlight, Hs.
Qed.

Lemma valid_onRTOVerified conn c s :
  same_limits conn c -> valid conn s ->
  valid conn (final (onRTOVerified c s)).
Proof.
  intros Hsame Hs. run_member. cbn [final].
  change (mul64 (minCwndInMss (transportSettings c)) (udpSendPacketLen c))
    with (lower_limit c).
  rewrite (same_limits_lower conn c Hsame).
  apply valid_set_cwndBytes; [exact Hs | apply lower_limit_u64 | apply bound_to_lower].
Qed.

Lemma valid_onPacketLoss conn c loss s :
  same_limits conn c -> valid conn s ->
  valid conn (final (onPacketLoss c loss s)).
Proof.
  intros Hsame Hs. run_member.
  destruct (largestLostPacketNum loss) as [largestLost |]; cbn beta iota;
    [| exact Hs].
  destruct (bytesInFlight_ s <? lostBytes loss); cbn beta iota; [exact Hs |].
  pose proof (valid_set_bytesInFlight conn s (bytesInFlight_ s - lostBytes loss) Hs)
    as Hs1.
  fold (sub64 (bytesInFlight_ s) (lostBytes loss)) in Hs1.
  set (s1 := set_bytesInFlight (sub64 (bytesInFlight_ s) (lostBytes loss)) s) in *.
  destruct (endOfRecovery_ s1 <? largestLost); cbn [final]; [| exact Hs1].
  rewrite (same_limits_bound_to conn c _ Hsame).
  destruct Hs1 as (Hc & Hb & _). unfold valid. fields.
  rewrite shr64_half.
  assert (u64 (cwndBytes_ s1 / 2)) as Hhalf.
  { unfold u64 in *. split.
    - apply Z.div_pos; lia.
    - apply Z.div_lt_upper_bound; lia. }
  split; [apply bound_to_u64, Hhalf | split; [exact Hb | apply bound_to_idem]].
Qed.

Lemma valid_onPacketAcked k conn c ack s :
  same_limits conn c -> valid conn s ->
  valid conn (final (onPacketAcked k c ack s)).
Proof.
  intros Hsame Hs. run_member.
  destruct (largestAckedPacket ack) as [largest |]; cbn beta iota;
    [| exact Hs].
  destruct (bytesInFlight_ s <? ackedBytes ack); cbn beta iota; [exact Hs |].
  pose proof (valid_set_bytesInFlight conn s
                (bytesInFlight_ s - ackedBytes ack) Hs)
    as Hs1.
  fold (sub64 (bytesInFlight_ s) (ackedBytes ack)) in Hs1.
  set (s1 := set_bytesInFlight (sub64 (bytesInFlight_ s) (ackedBytes ack)) s) in *.
  destruct (largest <? endOfRecovery_ s1); cbn [final]; [exact Hs1 |].
  destruct (cwndBytes_ s1 <? ssthresh_ s1).
  - destruct (u64_max - ackedBytes ack <? cwndBytes_ s1); cbn [final];
      [exact Hs1 |].
    cbn [cwndBytes_ set_cwndBytes].
    rewrite (same_limits_bound_to conn c _ Hsame).
    change (set_cwndBytes ?v (set_cwndBytes ?w s1)) with (set_cwndBytes v s1).
    apply valid_clamped, Hs1.
  - destruct (cwndBytes_ s1 =? 0); cbn [final]; [exact Hs1 |].
    destruct (u64_max - mul64 k (ackedBytes ack) / cwndBytes_ s1 <? cwndBytes_ s1);
      cbn [final]; [exact Hs1 |].
    cbn [cwndBytes_ set_cwndBytes].
    rewrite (same_limits_bound_to conn c _ Hsame).
    change (set_cwndBytes ?v (set_cwndBytes ?w s1)) with (set_cwndBytes v s1).
    apply valid_clamped, Hs1.
Qed.

Lemma valid_bind conn (A B : Type) (c : NR A) (f : A -> NR B) s :
  (forall s0, valid conn s0 -> valid conn (final (c s0))) ->
  (forall a s0, valid conn s0 -> valid conn (final (f a s0))) ->
  valid conn s -> valid conn (final (bind c f s)).
Proof.
  intros Hc Hf Hs. unfold bind. specialize (Hc s Hs).
  destruct (c s) as [a s' | e s']; cbn [final] in *.
  - apply Hf, Hc.
  - exact Hc.
Qed.

Lemma valid_onPacketAckOrLoss k conn c ackEvent lossEvent s :
  same_limits conn c -> valid conn s ->
  valid conn (final (onPacketAckOrLoss k c ackEvent lossEvent s)).
Proof.
  intros Hsame Hs. unfold onPacketAckOrLoss. apply valid_bind; [| | exact Hs].
  - intros s0 Hs0. destruct lossEvent as [loss |].
    + apply valid_onPacketLoss; assumption.
    + exact Hs0.
  - intros _ s0 Hs0. destruct ackEvent as [ack |]; [| exact Hs0].
    destruct (has_value (largestAckedPacket ack)); [| exact Hs0].
    apply valid_onPacketAcked; assumption.
Qed.

Lemma valid_deliver k conn c ev s :
  same_limits conn c -> valid conn s ->
  valid conn (final (deliver k c ev s)).
Proof.
  intros Hsame Hs. destruct ev; cbn [deliver].
  - apply valid_onPacketSent, Hs.
  - apply valid_onPacketAcked; assumption.
  - apply valid_onPacketLoss; assumption.
  - apply valid_onPacketAckOrLoss; assumption.
  - apply valid_onRTOVerified; assumption.
  - apply valid_onRemoveBytesFromInflight, Hs.
Qed.

Lemma valid_construct conn : valid conn (construct conn).
Proof.
  unfold valid, construct. fields.
  split; [apply bound_to_u64, wrap64_u64 | split; [| apply bound_to_idem]].
  unfold u64, u64_modulus. lia.
Qed.

Lemma valid_states_of k conn trace : forall s,
  Forall (fun ce => same_limits conn (fst ce)) trace ->
  valid conn s ->
  Forall (valid conn) (states_of k trace s).
Proof.
  induction trace as [| [c ev] rest IH]; intros s Hall Hs; cbn [states_of].
  - constructor.
  - inversion Hall as [| ? ? Hsame Hrest]; subst. cbn [fst] in Hsame.
    pose proof (valid_deliver k conn c ev s Hsame Hs) as Hstep.
    destruct (deliver k c ev s) as [[] s' | e s']; cbn [final] in Hstep.
    + constructor; [exact Hstep | apply IH; assumption].
    + constructor; [exact Hstep | constructor].
Qed.

Lemma valid_within_limits conn s :
  settings_u64 conn ->
  minCwndInMss (transportSettings conn) <= maxCwndInMss (transportSettings conn) ->
  maxCwndInMss (transportSettings conn) * udpSendPacketLen conn <= u64_max ->
  valid conn s -> within_limits conn s.
Proof.
  intros (Hlen & _ & Hmin & Hmax) Hle Hfit (_ & _ & Hfix).
  unfold u64 in *.
  assert (lower_limit conn
          = minCwndInMss (transportSettings conn) * udpSendPacketLen conn) as Hlo.
  { unfold lower_limit. apply mul64_exact; try lia.
    transitivity (maxCwndInMss (transportSettings conn) * udpSendPacketLen conn);
      [| exact Hfit].
    apply Z.mul_le_mono_nonneg_r; lia. }
  assert (upper_limit conn
          = maxCwndInMss (transportSettings conn) * udpSendPacketLen conn) as Hhi.
  { unfold upper_limit. apply mul64_exact; lia. }
  assert (lower_limit conn <= upper_limit conn) as Hord.
  { rewrite Hlo, Hhi. apply Z.mul_le_mono_nonneg_r; lia. }
  pose proof (bound_to_within conn (cwndBytes_ s) Hord) as Hin.
  rewrite Hfix, Hlo, Hhi in Hin. exact Hin.
Qed.

(** C7, as amended.  With 64-bit settings, [min_cwnd_in_mss <=
    max_cwnd_in_mss] and an upper bound [max_cwnd_in_mss * udp_payload_size]
    that fits 64 bits, [cwnd_bytes] is within [[min_cwnd_in_mss,
    max_cwnd_in_mss] * udp_payload_size] after construction and after every
    event of every trace whose events see the same settings and packet
    length (the state a failing event leaves behind included). *)
Theorem cwnd_stays_within_limits (k : Z) (conn : QuicConnectionStateBase)
    (trace : list (QuicConnectionStateBase * Event)) :
  settings_u64 conn ->
  minCwndInMss (transportSettings conn) <= maxCwndInMss (transportSettings conn) ->
  maxCwndInMss (transportSettings conn) * udpSendPacketLen conn <= u64_max ->
  Forall (fun ce => same_limits conn (fst ce)) trace ->
  Forall (within_limits conn)
    (construct conn :: states_of k trace (construct conn)).
Proof.
  intros Hset Hle Hfit Hall.
  assert (Forall (valid conn)
            (construct conn :: states_of k trace (construct conn))) as Hvalid.
  { constructor; [apply valid_construct |].
    apply valid_states_of; [exact Hall | apply valid_construct]. }
  revert Hvalid. apply Forall_impl. intros s.
  apply valid_within_limits; assumption.
Qed.

Lemma cwnd_stays_within_limits_witness :
  settings_u64 Sample.conn /\
  minCwndInMss (transportSettings Sample.conn)
    <= maxCwndInMss (transportSettings Sample.conn) /\
  maxCwndInMss (transportSettings Sample.conn) * udpSendPacketLen Sample.conn
    <= u64_max /\
  Forall (fun ce => same_limits Sample.conn (fst ce)) Sample.trace /\
  Forall (within_limits Sample.conn)
    (construct Sample.conn
       :: states_of 1252 Sample.trace (construct Sample.conn)).
Proof.
  assert (settings_u64 Sample.conn) as H1.
  { unfold settings_u64, u64, u64_modulus.
    cbn [Sample.conn udpSendPacketLen transportSettings initCwndInMss
         minCwndInMss maxCwndInMss]. lia. }
  assert (minCwndInMss (transportSettings Sample.conn)
            <= maxCwndInMss (transportSettings Sample.conn)) as H2 by concrete.
  assert (maxCwndInMss (transportSettings Sample.conn)
            * udpSendPacketLen Sample.conn <= u64_max) as H3 by concrete.
  assert (Forall (fun ce => same_limits Sample.conn (fst ce)) Sample.trace)
    as H4 by (repeat constructor).
  split; [exact H1 | split; [exact H2 | split; [exact H3 | split; [exact H4 |]]]].
  exact (cwnd_stays_within_limits 1252 Sample.conn Sample.trace H1 H2 H3 H4).
Defined.

(** C7 as stated fails once a bound wraps.  With 1252-byte packets, a
    minimum of 2^62 + 1 packets and a maximum of 2^63 packets the 64-bit
    products are 1252 and 0: the constructor and [onRTOVerified] both leave
    [cwnd_bytes = 1252], which is below [min_cwnd_in_mss * udp_payload_size]
    and above the upper bound the code computed. *)
Lemma cwnd_limits_counterexample :
  settings_u64 Sample.huge_conn /\
  minCwndInMss (transportSettings Sample.huge_conn)
    <= maxCwndInMss (transportSettings Sample.huge_conn) /\
  construct Sample.huge_conn :: states_of 1252 Sample.rto_trace
                                  (construct Sample.huge_conn)
    = [mkState u32_max 1252 0 0; mkState u32_max 1252 0 0] /\
  ~ within_limits Sample.huge_conn (mkState u32_max 1252 0 0) /\
  ~ within_computed_limits Sample.huge_conn (mkState u32_max 1252 0 0) /\
  ~ Forall (within_limits Sample.huge_conn)
      (construct Sample.huge_conn
         :: states_of 1252 Sample.rto_trace (construct Sample.huge_conn)).
Proof.
  assert (~ within_limits Sample.huge_conn (mkState u32_max 1252 0 0)) as Hout.
  { unfold within_limits. intros [Hlo _]. vm_compute in Hlo. apply Hlo. reflexivity. }
  split; [| split; [| split; [| split; [| split]]]].
  - unfold settings_u64, u64, u64_modulus.
    cbn [Sample.huge_conn udpSendPacketLen transportSettings initCwndInMss
         minCwndInMss maxCwndInMss]. lia.
  - concrete.
  - vm_compute. reflexivity.
  - exact Hout.
  - unfold within_computed_limits. intros [_ Hhi]. vm_compute in Hhi.
    apply Hhi. reflexivity.
  - intros Hall. inversion Hall as [| ? ? Hhead _]; subst.
    apply Hout. exact Hhead.
Qed.

(** *** The controller on the sample trace *)

Example construct_sample :
  construct Sample.conn = mkState u32_max 12520 0 0.
Proof. vm_compute. reflexivity. Qed.

(** Slow start grows the window by the acked bytes; the loss halves it, sets
    [ssthresh_] and opens a recovery epoch up to packet 40; the verified RTO
    collapses the window to two packets. *)
Example sample_trace_states :
  states_of 1252 Sample.trace (construct Sample.conn)
  = [ mkState u32_max 12520 1252 0;
      mkState u32_max 12520 2504 0;
      mkState u32_max 12520 3756 0;
      mkState u32_max 13772 2504 0;
      mkState 6886 6886 1252 40;
      mkState 6886 2504 1252 40 ].
Proof. vm_compute. reflexivity. Qed.

(** An ack for a packet sent before the loss leaves the window alone. *)
Example ack_in_recovery :
  onPacketAcked 1252 Sample.conn Sample.ack (mkState 6886 6886 1252 40)
  = Ok tt (mkState 6886 6886 0 40).
Proof. vm_compute. reflexivity. Qed.

(** More bytes acked than are in flight: the subtraction is refused. *)
Example ack_underflow :
  onPacketAcked 1252 Sample.conn Sample.ack (mkState 6886 6886 100 40)
  = Failed Underflow (mkState 6886 6886 100 40).
Proof. vm_compute. reflexivity. Qed.

End NewRenoEvents.

(** * Properties of ClientHandshake *)

Section HandshakeFacts.

Import Eff ClientHandshake.

Ltac run_handshake :=
  unfold computeOneRttCipher, computeZeroRttCipher, onRecvOneRttProtectedData,
    writeDataToStream, raiseError, waitForData, computeCiphers, buildAead,
    getOneRttWriteCipher, getOneRttReadCipher, getZeroRttWriteCipher,
    getHandshakeReadCipher, getHandshakeWriteCipher,
    getOneRttReadHeaderCipher, getOneRttWriteHeaderCipher,
    getHandshakeReadHeaderCipher, getHandshakeWriteHeaderCipher,
    getZeroRttWriteHeaderCipher,
    deref, throw_if_error,
    bind, get, put, modify, raise, ret;
  cbn beta iota.

(** C4. When 0-RTT was attempted and [computeOneRttCipher] learns that early
    data was not accepted while the early parameters no longer match, it
    records an EARLY_DATA_REJECTED error and returns at once: the phase (and
    every other member) stays as it was, so this call does not move the
    handshake to OneRttKeysDerived. *)
Theorem computeOneRttCipher_rejected_changed {fizz : Fizz} (s : State) :
  earlyDataAttempted_ s = true ->
  earlyParametersMatch (state_ s) = false ->
  exists s',
    computeOneRttCipher false s = Ok tt s' /\
    error_ s'
      = Some (QuicInternalException
                "Changing parameters when early data attempted not supported"
                EARLY_DATA_REJECTED) /\
    phase_ s' = phase_ s /\
    zeroRttRejected_ s' = zeroRttRejected_ s /\
    s' = set_error (error_ s') s.
Proof.
  intros Hatt Hmatch. run_handshake. rewrite Hatt, Hmatch. cbn.
  eexists. split; [reflexivity |]. repeat split.
Qed.

Lemma computeOneRttCipher_rejected_changed_witness :
  earlyDataAttempted_ (Scripted.attempted false) = true /\
  earlyParametersMatch (state_ (Scripted.attempted false)) = false /\
  phase_ (final (computeOneRttCipher false (Scripted.attempted false)))
    = Phase.Initial.
Proof.
  split; [reflexivity | split; [reflexivity |]].
  destruct (computeOneRttCipher_rejected_changed (Scripted.attempted false)
              eq_refl eq_refl) as (s' & Hrun & _ & Hphase & _).
  rewrite Hrun. cbn [final]. rewrite Hphase. reflexivity.
Defined.

(** C5. When 0-RTT was attempted and [computeOneRttCipher] learns that early
    data was not accepted while the early parameters still match, it sets
    [zero_rtt_rejected] to true, records no error (the stored error is what
    it was) and moves the phase to OneRttKeysDerived. *)
Theorem computeOneRttCipher_rejected_matching {fizz : Fizz} (s : State) :
  earlyDataAttempted_ s = true ->
  earlyParametersMatch (state_ s) = true ->
  exists s',
    computeOneRttCipher false s = Ok tt s' /\
    zeroRttRejected_ s' = Some true /\
    error_ s' = error_ s /\
    phase_ s' = Phase.OneRttKeysDerived /\
    s' = set_phase Phase.OneRttKeysDerived (set_zeroRttRejected (Some true) s).
Proof.
  intros Hatt Hmatch. run_handshake. rewrite Hatt, Hmatch. cbn.
  eexists. split; [reflexivity |]. repeat split.
Qed.

Lemma computeOneRttCipher_rejected_matching_witness :
  earlyDataAttempted_ (Scripted.attempted true) = true /\
  earlyParametersMatch (state_ (Scripted.attempted true)) = true /\
  phase_ (final (computeOneRttCipher false (Scripted.attempted true)))
    = Phase.OneRttKeysDerived /\
  error_ (final (computeOneRttCipher false (Scripted.attempted true))) = None.
Proof.
  split; [reflexivity | split; [reflexivity |]].
  destruct (computeOneRttCipher_rejected_matching (Scripted.attempted true)
              eq_refl eq_refl) as (s' & Hrun & _ & Herr & Hphase & _).
  rewrite Hrun. cbn [final]. rewrite Hphase, Herr. split; reflexivity.
Defined.

(** C8. [writeDataToStream] drops bytes written at the AppData level: the
    call returns with the handshake, its crypto streams included, untouched.
    At every other level it appends the bytes to the crypto stream of that
    level. *)
Theorem writeDataToStream_fanout {fizz : Fizz}
    (encryptionLevel : EncryptionLevel.t) (data : Buf) (s : State) :
  match encryptionLevel with
  | EncryptionLevel.AppData => writeDataToStream encryptionLevel data s = Ok tt s
  | _ =>
    exists s',
      writeDataToStream encryptionLevel data s = Ok tt s' /\
      getCryptoStream (cryptoState_ s') encryptionLevel
        = getCryptoStream (cryptoState_ s) encryptionLevel ++ bytes_of data
  end.
Proof.
  destruct encryptionLevel; run_handshake; cbn;
    try reflexivity; eexists; (split; [reflexivity |]); reflexivity.
Qed.

(** C10. [doHandshake] with a null buffer returns at once, for every
    encryption level and whatever the loop could have done: the handshake is
    left exactly as it was, so the phase (no move from Initial to Handshake),
    the three read buffers, [waitForData_] and the stored error are
    unchanged. *)
Theorem doHandshake_null_buffer {fizz : Fizz} (fuel : nat)
    (encryptionLevel : EncryptionLevel.t) (s : State) :
  doHandshake fuel None encryptionLevel s = Some (Ok tt s) /\
  (forall o, doHandshake fuel None encryptionLevel s = Some o ->
     phase_ (final o) = phase_ s /\
     initialReadBuf_ (final o) = initialReadBuf_ s /\
     handshakeReadBuf_ (final o) = handshakeReadBuf_ s /\
     appDataReadBuf_ (final o) = appDataReadBuf_ s /\
     waitForData_ (final o) = waitForData_ s /\
     error_ (final o) = error_ s).
Proof.
  split; [reflexivity |].
  intros o Ho. cbn [doHandshake] in Ho. injection Ho as <-. cbn [final].
  repeat split.
Qed.

Lemma doHandshake_null_buffer_witness :
  doHandshake 3 None EncryptionLevel.Initial Scripted.fresh
    = Some (Ok tt Scripted.fresh) /\
  phase_ Scripted.fresh = Phase.Initial.
Proof.
  split; [| reflexivity].
  exact (proj1 (doHandshake_null_buffer 3 EncryptionLevel.Initial
                  Scripted.fresh)).
Defined.

Ltac getter_ok :=
  let s := fresh "s" in
  let e := fresh "e" in
  let He := fresh "He" in
  unfold getter_contract; intros s; split; [| split];
  [ intros e He; run_handshake; rewrite He; reflexivity
  | intros e; reflexivity
  | intros He; eexists;
    split; [run_handshake; rewrite He; reflexivity |];
    split; [reflexivity |];
    split; [exact He |];
    run_handshake; cbn; rewrite He; reflexivity ].

(** C9. Each of the ten cipher getters throws the stored error whenever one
    is stored, in particular right after [raiseError] stored one; with no
    error stored it hands out the cipher of its slot and leaves the slot
    empty, so that the next call of the same getter returns nothing. *)
Theorem cipher_getters_contract {fizz : Fizz} :
  getter_contract getOneRttWriteCipher oneRttWriteCipher_ /\
  getter_contract getOneRttReadCipher oneRttReadCipher_ /\
  getter_contract getZeroRttWriteCipher zeroRttWriteCipher_ /\
  getter_contract getHandshakeReadCipher handshakeReadCipher_ /\
  getter_contract getHandshakeWriteCipher handshakeWriteCipher_ /\
  getter_contract getOneRttReadHeaderCipher oneRttReadHeaderCipher_ /\
  getter_contract getOneRttWriteHeaderCipher oneRttWriteHeaderCipher_ /\
  getter_contract getHandshakeReadHeaderCipher handshakeReadHeaderCipher_ /\
  getter_contract getHandshakeWriteHeaderCipher handshakeWriteHeaderCipher_ /\
  getter_contract getZeroRttWriteHeaderCipher zeroRttWriteHeaderCipher_.
Proof.
  repeat match goal with |- _ /\ _ => split end; getter_ok.
Qed.

Lemma cipher_getters_contract_witness :
  error_ Scripted.derived = None /\
  (exists s1,
     getOneRttReadCipher Scripted.derived = Ok (Some Scripted.secret) s1 /\
     oneRttReadCipher_ s1 = None /\
     getOneRttReadCipher s1 = Ok None s1) /\
  getOneRttReadCipher
    (final (raiseError (Some (OtherException "alert")) Scripted.derived))
  = Failed (Thrown (OtherException "alert"))
      (final (raiseError (Some (OtherException "alert")) Scripted.derived)).
Proof.
  destruct (cipher_getters_contract (fizz := Scripted.fizz)) as (_ & H & _).
  destruct (H Scripted.derived) as (_ & Hraised & Hmoved).
  split; [reflexivity | split].
  - destruct (Hmoved eq_refl) as (s1 & Hget & Hempty & _ & Hagain).
    exists s1. split; [exact Hget | split; [exact Hempty | exact Hagain]].
  - exact (Hraised (OtherException "alert")).
Defined.

(** *** The phase *)

Lemma buildAead_final {fizz : Fizz} (kind : CipherKind) (secret : ByteRange)
    (s : State) :
  final (buildAead kind secret s) = s.
Proof.
  unfold buildAead, deref, bind, get, ret, raise. cbn beta iota.
  destruct kind; cbn beta iota;
    destruct (cipher (state_ s)), (earlyDataParams (state_ s)),
      (keyScheduler (state_ s)); reflexivity.
Qed.

Lemma computeCiphers_phase {fizz : Fizz} (kind : CipherKind)
    (secret : ByteRange) (s : State) :
  phase_ (final (computeCiphers kind secret s)) = phase_ s.
Proof.
  unfold computeCiphers. unfold bind at 1.
  pose proof (buildAead_final kind secret s) as Hb.
  destruct (buildAead kind secret s) as [aead s0 | e s0];
    cbn [final] in Hb; subst s0; [| reflexivity].
  destruct kind; reflexivity.
Qed.

Lemma callback_phase {fizz : Fizz} (cb : Callback) (s : State) :
  phase_ (final (callback cb s)) = phase_ s \/
  phase_ (final (callback cb s)) = Phase.OneRttKeysDerived.
Proof.
  destruct cb as [kind secret | error | | encryptionLevel data | | accepted];
    cbn [callback].
  - left. apply computeCiphers_phase.
  - left. reflexivity.
  - left. reflexivity.
  - left. run_handshake. destruct encryptionLevel; reflexivity.
  - left. run_handshake. destruct (earlyDataParams (state_ s)); reflexivity.
  - run_handshake.
    destruct (earlyDataAttempted_ s && negb accepted);
      [destruct (earlyParametersMatch (state_ s)) |]; cbn; auto.
Qed.

Lemma callbacks_phase {fizz : Fizz} (cbs : list Callback) : forall s : State,
  phase_ (final (callbacks cbs s)) = phase_ s \/
  phase_ (final (callbacks cbs s)) = Phase.OneRttKeysDerived.
Proof.
  induction cbs as [| cb rest IH]; intros s; cbn [callbacks].
  - left. reflexivity.
  - unfold bind. pose proof (callback_phase cb s) as Hcb.
    destruct (callback cb s) as [[] s' | e s']; cbn [final] in *.
    + destruct (IH s') as [H | H]; [rewrite H; exact Hcb | right; exact H].
    + exact Hcb.
Qed.

Lemma processSocketData_phase {fizz : Fizz} (b : ReadBuf) (s : State) :
  phase_ (final (processSocketData b s)) = phase_ s \/
  phase_ (final (processSocketData b s)) = Phase.OneRttKeysDerived.
Proof.
  unfold processSocketData, bind, get, put. cbn beta iota.
  destruct (recordLayer (state_ s) (read_buf b s)) as [[state' rest] cbs].
  cbn beta iota.
  pose proof (callbacks_phase cbs (set_read_buf b rest (set_state state' s)))
    as H.
  replace (phase_ (set_read_buf b rest (set_state state' s))) with (phase_ s)
    in H by (destruct b; reflexivity).
  exact H.
Qed.

Lemma doHandshake_loop_phase {fizz : Fizz} (fuel : nat) :
  forall (s : State) o,
    doHandshake_loop fuel s = Some o ->
    phase_ (final o) = phase_ s \/
    phase_ (final o) = Phase.OneRttKeysDerived.
Proof.
  induction fuel as [| fuel IH]; intros s o; cbn [doHandshake_loop];
    destruct (waitForData_ s).
  - intros [= <-]. left. reflexivity.
  - discriminate.
  - intros [= <-]. left. reflexivity.
  - unfold bind at 1.
    pose proof (processSocketData_phase
                  (buf_of_level (getReadRecordLayerEncryptionLevel s)) s) as Hp.
    destruct (processSocketData
                (buf_of_level (getReadRecordLayerEncryptionLevel s)) s)
      as [[] s1 | e s1]; cbn [final] in Hp.
    + unfold throw_if_error, bind, get, raise, ret. cbn beta iota.
      destruct (error_ s1) as [e |].
      * intros [= <-]. cbn [final]. exact Hp.
      * intros Hloop. destruct (IH s1 o Hloop) as [H | H];
          [rewrite H; exact Hp | right; exact H].
    + intros [= <-]. cbn [final]. exact Hp.
Qed.

Lemma doHandshake_phase {fizz : Fizz} (fuel : nat) (data : Buf)
    (encryptionLevel : EncryptionLevel.t) (s : State) o :
  doHandshake fuel data encryptionLevel s = Some o ->
  phase_ (final o) = phase_ s \/
  (phase_ s = Phase.Initial /\ phase_ (final o) = Phase.Handshake) \/
  phase_ (final o) = Phase.OneRttKeysDerived.
Proof.
  destruct data as [bytes |]; cbn [doHandshake].
  - cbv zeta. intros Hloop. apply doHandshake_loop_phase in Hloop.
    destruct Hloop as [H | H]; [| right; right; exact H].
    rewrite H. clear H.
    destruct (phase_ s) eqn:Hph; cbn [Phase.eqb Phase.rank Nat.eqb];
      destruct (buf_of_level encryptionLevel); cbn; rewrite ?Hph; auto.
  - intros [= <-]. left. reflexivity.
Qed.

(** C3, as amended.  [onRecvOneRttProtectedData] never moves the phase back,
    and neither do [doHandshake] and [computeOneRttCipher] when they are
    invoked in a phase other than Established.  [computeOneRttCipher] sets
    the phase to OneRttKeysDerived whatever it was, so invoked at
    Established (directly, or by the record layer while [doHandshake] runs)
    it moves the phase back to OneRttKeysDerived; no other decrease exists. *)
Theorem phase_order_kept {fizz : Fizz} (fuel : nat) (op : Operation)
    (s s' : State) :
  perform fuel op s = Some s' ->
  (op = OnRecvOneRttProtectedData -> Phase.le (phase_ s) (phase_ s')) /\
  (phase_ s <> Phase.Established -> Phase.le (phase_ s) (phase_ s')) /\
  (Phase.le (phase_ s) (phase_ s') \/
   (phase_ s = Phase.Established /\ phase_ s' = Phase.OneRttKeysDerived /\
    op <> OnRecvOneRttProtectedData)).
Proof.
  intros Hrun.
  assert (phase_ s' = phase_ s \/
          (phase_ s = Phase.Initial /\ phase_ s' = Phase.Handshake) \/
          (phase_ s' = Phase.OneRttKeysDerived
           /\ op <> OnRecvOneRttProtectedData) \/
          phase_ s' = Phase.Established) as Hcases.
  { destruct op as [data encryptionLevel | accepted |]; cbn [perform] in Hrun.
    - destruct (doHandshake fuel data encryptionLevel s) as [o |] eqn:Hdo;
        [| discriminate].
      cbn [option_map] in Hrun. injection Hrun as <-.
      destruct (doHandshake_phase fuel data encryptionLevel s o Hdo)
        as [H | [H | H]]; auto.
      right; right; left. split; [exact H | discriminate].
    - injection Hrun as <-.
      destruct (callback_phase (ComputeOneRttCipher accepted) s) as [H | H];
        cbn [callback] in H; auto.
      right; right; left. split; [exact H | discriminate].
    - injection Hrun as <-. run_handshake.
      destruct (phase_ s) eqn:Hph; cbn; auto. }
  unfold Phase.le.
  destruct Hcases as [H | [[H1 H2] | [[H1 H2] | H]]].
  - rewrite H. repeat split; auto.
  - rewrite H1, H2. cbn. repeat split; auto.
  - rewrite H1. destruct (phase_ s); cbn; repeat split; intros;
      try congruence; try lia; auto.
  - rewrite H. destruct (phase_ s); cbn; repeat split; intros; try lia; auto.
Qed.

Lemma first_flight_run :
  perform 4 Scripted.first_flight Scripted.fresh = Some Scripted.derived.
Proof. vm_compute. reflexivity. Qed.

Lemma phase_order_kept_witness :
  perform 4 Scripted.first_flight Scripted.fresh = Some Scripted.derived /\
  Phase.le (phase_ Scripted.fresh) (phase_ Scripted.derived).
Proof.
  split; [exact first_flight_run |].
  refine (proj1 (proj2 (phase_order_kept 4 Scripted.first_flight
                          Scripted.fresh Scripted.derived first_flight_run)) _).
  discriminate.
Defined.

(** C3 as stated fails: once [onRecvOneRttProtectedData] has made the phase
    Established, [computeOneRttCipher] puts it back to OneRttKeysDerived,
    whether it is called directly or by the record layer during
    [doHandshake]. *)
Lemma phase_order_counterexample :
  perform 0 OnRecvOneRttProtectedData Scripted.fresh
    = Some Scripted.established /\
  phase_ Scripted.established = Phase.Established /\
  perform 0 (CallComputeOneRttCipher true) Scripted.established
    = Some (set_phase Phase.OneRttKeysDerived Scripted.established) /\
  option_map phase_
    (perform_all 0 [OnRecvOneRttProtectedData; CallComputeOneRttCipher true]
       Scripted.fresh)
    = Some Phase.OneRttKeysDerived /\
  perform 4 Scripted.first_flight Scripted.established
    = Some Scripted.derived /\
  ~ Phase.le Phase.Established Phase.OneRttKeysDerived /\
  ~ keeps_phase_order 0 (CallComputeOneRttCipher true) Scripted.established /\
  ~ keeps_phase_order 4 Scripted.first_flight Scripted.established.
Proof.
  assert (~ Phase.le Phase.Established Phase.OneRttKeysDerived) as Hnot
    by (unfold Phase.le; cbn; lia).
  assert (perform 0 (CallComputeOneRttCipher true) Scripted.established
          = Some (set_phase Phase.OneRttKeysDerived Scripted.established))
    as Hdirect by (vm_compute; reflexivity).
  assert (perform 4 Scripted.first_flight Scripted.established
          = Some Scripted.derived)
    as Hcallback by (vm_compute; reflexivity).
  repeat match goal with |- _ /\ _ => split end;
    try (vm_compute; reflexivity); try assumption.
  - intros Hkeep. apply Hnot. exact (Hkeep _ Hdirect).
  - intros Hkeep. apply Hnot. exact (Hkeep _ Hcallback).
Qed.

(** *** The handshake on the scripted record layer *)

(** Bytes arriving in phase Initial move the phase to Handshake, here with a
    record layer that only waits for more data. *)
Example doHandshake_leaves_initial :
  option_map (fun o => phase_ (final o))
    (doHandshake 1 (Some [Byte.x16]) EncryptionLevel.Initial
       (construct (fizz := Scripted.fizz)
          (Scripted.mkTls EncryptionLevel.Initial true false [])
          Scripted.no_streams))
  = Some Phase.Handshake.
Proof. vm_compute. reflexivity. Qed.

(** The loop needs a turn of the record layer before it can stop. *)
Example doHandshake_needs_a_turn :
  perform 0 Scripted.first_flight Scripted.fresh = None.
Proof. vm_compute. reflexivity. Qed.

(** A stored error surfaces from [doHandshake]. *)
Example doHandshake_throws :
  option_map (fun o => match o with Ok _ _ => None | Failed e _ => Some e end)
    (doHandshake 1 (Some [Byte.x16]) EncryptionLevel.Handshake
       (construct (fizz := Scripted.fizz)
          (Scripted.mkTls EncryptionLevel.Handshake true false
             [[RaiseError (Some (OtherException "bad record"))]])
          Scripted.no_streams))
  = Some (Some (Thrown (OtherException "bad record"))).
Proof. vm_compute. reflexivity. Qed.

(** The 1-RTT read cipher installed by the first flight can be taken once. *)
Example getOneRttReadCipher_twice :
  (c1 <- getOneRttReadCipher ;; c2 <- getOneRttReadCipher ;; ret (c1, c2))%eff
    Scripted.derived
  = Ok (Some Scripted.secret, None)
      (set_oneRttReadCipher None Scripted.derived).
Proof. vm_compute. reflexivity. Qed.

End HandshakeFacts.

(** * More of NewReno *)

Section NewRenoBehaviour.

Import Eff NewReno.
Local Open Scope Z_scope.

Ltac open_member :=
  unfold onPacketAcked, onPacketLoss, onPacketSent, onRemoveBytesFromInflight,
    onRTOVerified, checked, DCHECK, has_value,
    subtractAndCheckUnderflow, addAndCheckOverflow,
    bind, get, put, modify, raise, ret;
  cbn beta iota zeta.

Ltac evaluate :=
  vm_compute; first [reflexivity | discriminate | intuition congruence].

Ltac tidy := repeat split; auto.

Ltac members :=
  cbn [cwndBytes_ ssthresh_ bytesInFlight_ endOfRecovery_
       set_bytesInFlight set_cwndBytes set_ssthresh set_endOfRecovery final].

(** What [onPacketAcked] leaves behind, whether it returns or fails. *)
Lemma onPacketAcked_final (k : Z) (conn : QuicConnectionStateBase)
    (ack : AckEvent) (s : State) :
  let s' := final (onPacketAcked k conn ack s) in
  ssthresh_ s' = ssthresh_ s /\
  endOfRecovery_ s' = endOfRecovery_ s /\
  (bytesInFlight_ s' = bytesInFlight_ s \/
   bytesInFlight_ s' = sub64 (bytesInFlight_ s) (ackedBytes ack)) /\
  (cwndBytes_ s' = cwndBytes_ s \/
   exists largest by_,
     largestAckedPacket ack = Some largest /\
     endOfRecovery_ s <= largest /\
     (by_ = ackedBytes ack \/
      by_ = mul64 k (ackedBytes ack) / cwndBytes_ s) /\
     cwndBytes_ s + by_ <= u64_max /\
     cwndBytes_ s' = bound_to conn (add64 (cwndBytes_ s) by_)).
Proof.
  open_member.
  destruct (largestAckedPacket ack) as [largest |]; cbn beta iota zeta;
    [| members; tidy].
  destruct (bytesInFlight_ s <? ackedBytes ack); cbn beta iota zeta;
    [members; tidy |].
  members.
  destruct (largest <? endOfRecovery_ s) eqn:Erec; members; [tidy |].
  apply Z.ltb_ge in Erec.
  destruct (cwndBytes_ s <? ssthresh_ s); cbn beta iota zeta; members.
  - destruct (u64_max - ackedBytes ack <? cwndBytes_ s) eqn:Eov; members;
      [tidy |].
    apply Z.ltb_ge in Eov.
    repeat split; auto. right. exists largest, (ackedBytes ack).
    repeat split; auto. lia.
  - destruct (cwndBytes_ s =? 0); members; [tidy |].
    destruct (u64_max - mul64 k (ackedBytes ack) / cwndBytes_ s
              <? cwndBytes_ s) eqn:Eov; members; [tidy |].
    apply Z.ltb_ge in Eov.
    repeat split; auto. right.
    exists largest, (mul64 k (ackedBytes ack) / cwndBytes_ s).
    repeat split; auto. lia.
Qed.

(** What [onPacketLoss] leaves behind, whether it returns or fails. *)
Lemma onPacketLoss_final (conn : QuicConnectionStateBase) (loss : LossEvent)
    (s : State) :
  let s' := final (onPacketLoss conn loss s) in
  (bytesInFlight_ s' = bytesInFlight_ s \/
   bytesInFlight_ s' = sub64 (bytesInFlight_ s) (lostBytes loss)) /\
  ((cwndBytes_ s' = cwndBytes_ s /\ ssthresh_ s' = ssthresh_ s /\
    endOfRecovery_ s' = endOfRecovery_ s) \/
   (exists largestLost,
      largestLostPacketNum loss = Some largestLost /\
      endOfRecovery_ s < largestLost /\
      cwndBytes_ s' = bound_to conn (cwndBytes_ s / 2) /\
      ssthresh_ s' = cwndBytes_ s' /\
      endOfRecovery_ s' = largestSent (lossState conn))).
Proof.
  open_member.
  destruct (largestLostPacketNum loss) as [largestLost |]; cbn beta iota zeta;
    [| members; tidy].
  destruct (bytesInFlight_ s <? lostBytes loss); cbn beta iota zeta;
    [members; tidy |].
  members.
  destruct (endOfRecovery_ s <? largestLost) eqn:Enew; members; [| tidy].
  apply Z.ltb_lt in Enew. rewrite shr64_half.
  split; [auto |]. right. exists largestLost. repeat split; auto.
Qed.

(** A call that returns has taken exactly the acked, lost or removed bytes
    off the bytes in flight, or added the sent ones. *)
Lemma onPacketAcked_returns (k : Z) (conn : QuicConnectionStateBase)
    (ack : AckEvent) (s s' : State) :
  onPacketAcked k conn ack s = Ok tt s' ->
  ackedBytes ack <= bytesInFlight_ s /\
  bytesInFlight_ s' = sub64 (bytesInFlight_ s) (ackedBytes ack).
Proof.
  open_member.
  destruct (largestAckedPacket ack) as [largest |]; cbn beta iota zeta; members;
    [| discriminate].
  destruct (bytesInFlight_ s <? ackedBytes ack) eqn:Eun; cbn beta iota zeta; members;
    [discriminate |].
  apply Z.ltb_ge in Eun. members.
  destruct (largest <? endOfRecovery_ s); cbn beta iota zeta; members.
  - intros [= <-]. members. auto.
  - destruct (cwndBytes_ s <? ssthresh_ s); cbn beta iota zeta; members.
    + destruct (u64_max - ackedBytes ack <? cwndBytes_ s); cbn beta iota zeta; members;
        [discriminate |].
      intros [= <-]. members. auto.
    + destruct (cwndBytes_ s =? 0); cbn beta iota zeta; members; [discriminate |].
      destruct (u64_max - mul64 k (ackedBytes ack) / cwndBytes_ s
                <? cwndBytes_ s); cbn beta iota zeta; members; [discriminate |].
      intros [= <-]. members. auto.
Qed.

Lemma onPacketLoss_returns (conn : QuicConnectionStateBase) (loss : LossEvent)
    (s s' : State) :
  onPacketLoss conn loss s = Ok tt s' ->
  lostBytes loss <= bytesInFlight_ s /\
  bytesInFlight_ s' = sub64 (bytesInFlight_ s) (lostBytes loss).
Proof.
  open_member.
  destruct (largestLostPacketNum loss) as [largestLost |]; cbn beta iota zeta; members;
    [| discriminate].
  destruct (bytesInFlight_ s <? lostBytes loss) eqn:Eun; cbn beta iota zeta; members;
    [discriminate |].
  apply Z.ltb_ge in Eun. members.
  destruct (endOfRecovery_ s <? largestLost); cbn beta iota zeta; members;
    intros [= <-]; members; auto.
Qed.

Lemma deliver_in_flight (k : Z) (conn : QuicConnectionStateBase) (ev : Event)
    (s s' : State) :
  deliver k conn ev s = Ok tt s' ->
  u64 (bytesInFlight_ s) ->
  event_u64 ev ->
  bytesInFlight_ s' = bytesInFlight_ s + in_flight_change ev /\
  u64 (bytesInFlight_ s').
Proof.
  intros Hrun Hb Hev.
  assert (forall n, u64 n -> n <= bytesInFlight_ s ->
            bytesInFlight_ s' = sub64 (bytesInFlight_ s) n ->
            bytesInFlight_ s' = bytesInFlight_ s + - n /\
            u64 (bytesInFlight_ s')) as Hsub.
  { intros n Hn Hle Heq. rewrite Heq. unfold u64 in Hn.
    rewrite sub64_exact by (auto; lia). unfold u64 in *. lia. }
  destruct ev as [packet | ack | loss | ackEvent lossEvent | | bytes];
    cbn [deliver in_flight_change event_u64] in *.
  - revert Hrun. open_member.
    destruct (u64_max - encodedSize packet <? bytesInFlight_ s) eqn:Eov;
      cbn beta iota zeta; members; [discriminate |].
    apply Z.ltb_ge in Eov. intros [= <-]. members.
    unfold u64 in Hb, Hev. rewrite add64_exact by lia.
    unfold u64. rewrite u64_max_modulus in Eov. lia.
  - destruct (onPacketAcked_returns k conn ack s s' Hrun) as [Hle Heq].
    apply Hsub; assumption.
  - destruct (onPacketLoss_returns conn loss s s' Hrun) as [Hle Heq].
    apply Hsub; assumption.
  - destruct Hev as [Hacked Hlost].
    assert (exists s1 : State,
              bytesInFlight_ s1
                = bytesInFlight_ s - ack_or_loss_lost lossEvent /\
              u64 (bytesInFlight_ s1) /\
              match ackEvent with
              | Some ack =>
                if has_value (largestAckedPacket ack)
                then onPacketAcked k conn ack
                else ret tt
              | None => ret tt
              end s1 = Ok tt s') as (s1 & Hs1 & Hu1 & Hack).
    { revert Hrun. unfold onPacketAckOrLoss.
      destruct lossEvent as [loss |]; cbn [ack_or_loss_lost] in *;
        unfold bind at 1; cbn beta iota.
      - destruct (onPacketLoss conn loss s) as [[] s1 | e s1] eqn:Hl;
          [| discriminate].
        intros Hack. exists s1.
        destruct (onPacketLoss_returns conn loss s s1 Hl) as [Hle Heq].
        rewrite Heq. unfold u64 in Hlost.
        rewrite sub64_exact by (auto; lia).
        split; [reflexivity | split; [unfold u64 in *; lia | exact Hack]].
      - unfold ret at 1. cbn beta iota. intros Hack. exists s.
        split; [lia | split; [exact Hb | exact Hack]]. }
    destruct ackEvent as [ack |]; cbn [ack_or_loss_acked] in *.
    + destruct (has_value (largestAckedPacket ack)).
      * destruct (onPacketAcked_returns k conn ack s1 s' Hack) as [Hle Heq].
        rewrite Heq. unfold u64 in Hacked.
        rewrite sub64_exact by (auto; lia). unfold u64 in *. lia.
      * unfold ret in Hack. injection Hack as <-. split; [lia | exact Hu1].
    + unfold ret in Hack. injection Hack as <-. split; [lia | exact Hu1].
  - revert Hrun. open_member. intros [= <-]. members. split; [lia | exact Hb].
  - revert Hrun. open_member.
    destruct (bytesInFlight_ s <? bytes) eqn:Eun; cbn beta iota zeta; members;
      [discriminate |].
    apply Z.ltb_ge in Eun. intros [= <-]. members.
    apply Hsub; [exact Hev | exact Eun |]. members. reflexivity.
Qed.

(** X1. On every trace that runs to its end without a failing event, the
    bytes in flight at the end are those at the start plus the bytes sent,
    minus the bytes acked, lost and removed (an ack without a largest acked
    packet number handed to [onPacketAckOrLoss] counting for nothing): the
    64-bit counter never wraps. *)
Theorem bytes_in_flight_accounting (k : Z)
    (trace : list (QuicConnectionStateBase * Event)) :
  forall s s' : State,
    u64 (bytesInFlight_ s) ->
    Forall (fun ce => event_u64 (snd ce)) trace ->
    run k trace s = Some s' ->
    bytesInFlight_ s'
      = bytesInFlight_ s + total_in_flight_change trace /\
    u64 (bytesInFlight_ s').
Proof.
  induction trace as [| [conn ev] rest IH]; intros s s' Hb Hall;
    cbn [run total_in_flight_change].
  - intros [= <-]. split; [lia | exact Hb].
  - inversion Hall as [| ? ? Hev Hrest]; subst. cbn [snd] in Hev.
    destruct (deliver k conn ev s) as [[] s1 | e s1] eqn:Hstep;
      [| discriminate].
    intros Hrun.
    destruct (deliver_in_flight k conn ev s s1 Hstep Hb Hev) as [H1 Hu1].
    destruct (IH s1 s' Hu1 Hrest Hrun) as [H2 Hu2].
    split; [lia | exact Hu2].
Qed.

Lemma sample_trace_events_u64 :
  Forall (fun ce => event_u64 (snd ce)) Sample.trace.
Proof. repeat constructor; evaluate. Qed.

Lemma bytes_in_flight_accounting_witness :
  u64 (bytesInFlight_ (construct Sample.conn)) /\
  Forall (fun ce => event_u64 (snd ce)) Sample.trace /\
  run 1252 Sample.trace (construct Sample.conn)
    = Some (mkState 6886 2504 1252 40) /\
  bytesInFlight_ (mkState 6886 2504 1252 40)
    = bytesInFlight_ (construct Sample.conn)
      + total_in_flight_change Sample.trace.
Proof.
  assert (u64 (bytesInFlight_ (construct Sample.conn))) as Hb by evaluate.
  assert (run 1252 Sample.trace (construct Sample.conn)
          = Some (mkState 6886 2504 1252 40)) as Hrun
    by (vm_compute; reflexivity).
  split; [exact Hb | split; [exact sample_trace_events_u64 | split;
    [exact Hrun |]]].
  exact (proj1 (bytes_in_flight_accounting 1252 Sample.trace
                  (construct Sample.conn) (mkState 6886 2504 1252 40)
                  Hb sample_trace_events_u64 Hrun)).
Defined.

Lemma bound_to_monotone conn a b : a <= b -> bound_to conn a <= bound_to conn b.
Proof. rewrite !bound_to_eq. lia. Qed.

Lemma bound_to_above_lower conn c : lower_limit conn <= bound_to conn c.
Proof. rewrite bound_to_eq. lia. Qed.

(** One ack on a valid controller: the window does not shrink and
    [ssthresh] stays. *)
Lemma ack_window_step (k : Z) (conn : QuicConnectionStateBase)
    (ack : AckEvent) (s : State) :
  valid conn s ->
  u64 (ackedBytes ack) ->
  let s' := final (onPacketAcked k conn ack s) in
  cwndBytes_ s <= cwndBytes_ s' /\ ssthresh_ s' = ssthresh_ s.
Proof.
  intros (Hc & Hb & Hfix) Ha s'.
  destruct (onPacketAcked_final k conn ack s)
    as (Hss & _ & _ & Hcwnd). fold s' in Hss, Hcwnd.
  split; [| exact Hss].
  destruct Hcwnd as [Heq | (largest & by_ & _ & _ & Hby & Hfit & Heq)].
  - lia.
  - assert (0 <= by_) as Hby0.
    { destruct Hby as [-> | ->]; [unfold u64 in Ha; lia |].
      destruct (Z.eq_dec (cwndBytes_ s) 0) as [Hz | Hnz].
      - rewrite Hz, Z.div_0_r. lia.
      - apply Z.div_pos; [| unfold u64 in Hc; lia].
        pose proof (wrap64_u64 (k * ackedBytes ack)) as Hw.
        unfold u64 in Hw. unfold mul64. lia. }
    rewrite Heq. unfold u64 in Hc. rewrite add64_exact by lia.
    rewrite <- Hfix at 1. apply bound_to_monotone. lia.
Qed.

(** X2. On a valid controller an ack never shrinks the congestion window,
    whether [onPacketAcked] returns or fails, and never takes a controller
    that has left slow start back into it. *)
Theorem ack_never_shrinks_window (k : Z) (conn : QuicConnectionStateBase)
    (ack : AckEvent) (s : State) :
  valid conn s ->
  u64 (ackedBytes ack) ->
  let s' := final (onPacketAcked k conn ack s) in
  cwndBytes_ s <= cwndBytes_ s' /\
  (inSlowStart s = false -> inSlowStart s' = false).
Proof.
  intros Hs Ha s'.
  destruct (ack_window_step k conn ack s Hs Ha) as [Hgrow Hss].
  fold s' in Hgrow, Hss.
  split; [exact Hgrow |].
  unfold inSlowStart. rewrite Hss. intros Hout.
  apply Z.ltb_ge in Hout. apply Z.ltb_ge. lia.
Qed.

Lemma ack_never_shrinks_window_witness :
  valid Sample.conn Sample.avoiding /\
  u64 (ackedBytes Sample.ack) /\
  cwndBytes_ Sample.avoiding
    <= cwndBytes_ (final (onPacketAcked 1252 Sample.conn Sample.ack
                            Sample.avoiding)).
Proof.
  assert (u64 (ackedBytes Sample.ack)) as Ha by evaluate.
  split; [exact sample_avoiding_valid | split; [exact Ha |]].
  exact (proj1 (ack_never_shrinks_window 1252 Sample.conn Sample.ack
                  Sample.avoiding sample_avoiding_valid Ha)).
Defined.

(** X3. On a valid controller a loss never grows the congestion window and
    never takes it below the lower limit of the clamp, whether
    [onPacketLoss] returns or fails. *)
Theorem loss_never_grows_window (conn : QuicConnectionStateBase)
    (loss : LossEvent) (s : State) :
  valid conn s ->
  let s' := final (onPacketLoss conn loss s) in
  lower_limit conn <= cwndBytes_ s' <= cwndBytes_ s.
Proof.
  intros (Hc & Hb & Hfix) s'.
  destruct (onPacketLoss_final conn loss s) as (_ & Hcases). fold s' in Hcases.
  assert (lower_limit conn <= cwndBytes_ s) as Hlow
    by (rewrite <- Hfix; apply bound_to_above_lower).
  destruct Hcases as [(Heq & _) | (n & _ & _ & Heq & _)].
  - lia.
  - rewrite Heq. split; [apply bound_to_above_lower |].
    rewrite <- Hfix at 2. apply bound_to_monotone.
    unfold u64 in Hc. apply Z.div_le_upper_bound; lia.
Qed.

Lemma loss_never_grows_window_witness :
  valid Sample.conn Sample.avoiding /\
  lower_limit Sample.conn
    <= cwndBytes_ (final (onPacketLoss Sample.conn Sample.loss
                            Sample.avoiding))
    <= cwndBytes_ Sample.avoiding.
Proof.
  split; [exact sample_avoiding_valid |].
  exact (loss_never_grows_window Sample.conn Sample.loss Sample.avoiding
           sample_avoiding_valid).
Defined.



Lemma onPacketLoss_new_epoch (conn : QuicConnectionStateBase)
    (loss : LossEvent) (largestLost : PacketNum) (s s1 : State) :
  largestLostPacketNum loss = Some largestLost ->
  endOfRecovery_ s < largestLost ->
  onPacketLoss conn loss s = Ok tt s1 ->
  cwndBytes_ s1 = bound_to conn (cwndBytes_ s / 2) /\
  ssthresh_ s1 = cwndBytes_ s1 /\
  endOfRecovery_ s1 = largestSent (lossState conn).
Proof.
  intros Hl Hnew. open_member. rewrite Hl. cbn beta iota zeta.
  destruct (bytesInFlight_ s <? lostBytes loss); cbn beta iota zeta;
    [discriminate |].
  members. apply Z.ltb_lt in Hnew. rewrite Hnew. cbn beta iota zeta.
  intros [= <-]. members. rewrite shr64_half. repeat split.
Qed.



(** *** Recovery epochs *)

Lemma ack_inside_epoch (k : Z) (conn : QuicConnectionStateBase)
    (ack : AckEvent) (s : State) :
  acked_inside (endOfRecovery_ s) ack ->
  let s' := final (onPacketAcked k conn ack s) in
  cwndBytes_ s' = cwndBytes_ s /\ ssthresh_ s' = ssthresh_ s /\
  endOfRecovery_ s' = endOfRecovery_ s.
Proof.
  intros Hin s'.
  destruct (onPacketAcked_final k conn ack s) as (Hss & Heor & _ & Hcwnd).
  fold s' in Hss, Heor, Hcwnd.
  split; [| split; assumption].
  destruct Hcwnd as [Heq | (largest & by_ & Hl & Hout & _)]; [exact Heq |].
  unfold acked_inside in Hin. rewrite Hl in Hin. lia.
Qed.

Lemma loss_inside_epoch (conn : QuicConnectionStateBase) (loss : LossEvent)
    (s : State) :
  lost_inside (endOfRecovery_ s) loss ->
  let s' := final (onPacketLoss conn loss s) in
  cwndBytes_ s' = cwndBytes_ s /\ ssthresh_ s' = ssthresh_ s /\
  endOfRecovery_ s' = endOfRecovery_ s.
Proof.
  intros Hin s'.
  destruct (onPacketLoss_final conn loss s) as (_ & Hcases).
  fold s' in Hcases.
  destruct Hcases as [Hsame | (n & Hl & Hnew & _)]; [exact Hsame |].
  unfold lost_inside in Hin. rewrite Hl in Hin. lia.
Qed.

Lemma final_bind (A B : Type) (c : NR A) (f : A -> NR B) (s : State) :
  final (bind c f s)
  = match c s with
    | Ok a s1 => final (f a s1)
    | Failed _ s1 => s1
    end.
Proof. unfold bind. destruct (c s); reflexivity. Qed.

Lemma deliver_inside_epoch (k : Z) (conn : QuicConnectionStateBase)
    (ev : Event) (s : State) :
  inside_epoch (endOfRecovery_ s) ev ->
  let s' := final (deliver k conn ev s) in
  cwndBytes_ s' = cwndBytes_ s /\ ssthresh_ s' = ssthresh_ s /\
  endOfRecovery_ s' = endOfRecovery_ s.
Proof.
  destruct ev as [packet | ack | loss | ackEvent lossEvent | | bytes];
    cbn [deliver inside_epoch]; intros Hin.
  - open_member.
    destruct (u64_max - encodedSize packet <? bytesInFlight_ s);
      cbn beta iota zeta; members; tidy.
  - apply ack_inside_epoch, Hin.
  - apply loss_inside_epoch, Hin.
  - destruct Hin as [Hack Hloss]. cbv zeta. unfold onPacketAckOrLoss.
    rewrite final_bind.
    assert (forall s1 : State,
              endOfRecovery_ s1 = endOfRecovery_ s ->
              let s' := final (match ackEvent with
                               | Some ack =>
                                 if has_value (largestAckedPacket ack)
                                 then onPacketAcked k conn ack
                                 else ret tt
                               | None => ret tt
                               end s1) in
              cwndBytes_ s' = cwndBytes_ s1 /\ ssthresh_ s' = ssthresh_ s1 /\
              endOfRecovery_ s' = endOfRecovery_ s1) as Hsecond.
    { intros s1 He1. destruct ackEvent as [ack |];
        [| unfold ret; cbn [final]; tidy].
      destruct (has_value (largestAckedPacket ack));
        [| unfold ret; cbn [final]; tidy].
      apply ack_inside_epoch. rewrite He1. exact Hack. }
    cbv zeta in Hsecond.
    destruct lossEvent as [loss |].
    + pose proof (loss_inside_epoch conn loss s Hloss) as Hfirst.
      cbv zeta in Hfirst.
      destruct (onPacketLoss conn loss s) as [[] s1 | e s1];
        cbn [final] in Hfirst; cbn beta iota; [| exact Hfirst].
      destruct Hfirst as (Hc1 & Hs1 & He1).
      destruct (Hsecond s1 He1) as (Hc2 & Hs2 & He2).
      split; [| split].
      * exact (eq_trans Hc2 Hc1).
      * exact (eq_trans Hs2 Hs1).
      * exact (eq_trans He2 He1).
    + unfold ret at 1. cbn beta iota. exact (Hsecond s eq_refl).
  - contradiction.
  - open_member.
    destruct (bytesInFlight_ s <? bytes); cbn beta iota zeta; members; tidy.
Qed.

(** X5. A recovery epoch freezes the window: from any state, as long as the
    events are packets sent, bytes removed, acks of packets below
    [end_of_recovery] and losses of packets up to [end_of_recovery],
    [cwnd_bytes], [ssthresh] and [end_of_recovery] stay what they were after
    every event; in particular the window is reduced once per epoch. *)
Theorem recovery_epoch_freezes_window (k : Z)
    (trace : list (QuicConnectionStateBase * Event)) :
  forall s : State,
    Forall (fun ce => inside_epoch (endOfRecovery_ s) (snd ce)) trace ->
    Forall (fun s' =>
              cwndBytes_ s' = cwndBytes_ s /\
              ssthresh_ s' = ssthresh_ s /\
              endOfRecovery_ s' = endOfRecovery_ s)
      (states_of k trace s).
Proof.
  induction trace as [| [conn ev] rest IH]; intros s Hall; cbn [states_of].
  - constructor.
  - inversion Hall as [| ? ? Hin Hrest]; subst. cbn [snd] in Hin.
    pose proof (deliver_inside_epoch k conn ev s Hin) as Hstep.
    cbv zeta in Hstep.
    destruct (deliver k conn ev s) as [[] s1 | e s1]; cbn [final] in Hstep.
    + constructor; [exact Hstep |].
      destruct Hstep as (Hc & Hs & He).
      rewrite <- Hc, <- Hs, <- He. apply IH. rewrite He. exact Hrest.
    + constructor; [exact Hstep | constructor].
Qed.

Lemma recovery_epoch_freezes_window_witness :
  Forall (fun ce =>
            inside_epoch (endOfRecovery_ (mkState 6260 6260 3748 40)) (snd ce))
    Sample.epoch_trace /\
  Forall (fun s' =>
            cwndBytes_ s' = 6260 /\ ssthresh_ s' = 6260 /\
            endOfRecovery_ s' = 40)
    (states_of 1252 Sample.epoch_trace (mkState 6260 6260 3748 40)).
Proof.
  assert (Forall (fun ce =>
                    inside_epoch (endOfRecovery_ (mkState 6260 6260 3748 40))
                      (snd ce)) Sample.epoch_trace) as Hin
    by (repeat constructor; evaluate).
  split; [exact Hin |].
  exact (recovery_epoch_freezes_window 1252 Sample.epoch_trace
           (mkState 6260 6260 3748 40) Hin).
Defined.

Lemma deliver_without_loss (k : Z) (conn : QuicConnectionStateBase)
    (ev : Event) (s : State) :
  carries_loss ev = false ->
  let s' := final (deliver k conn ev s) in
  ssthresh_ s' = ssthresh_ s /\ endOfRecovery_ s' = endOfRecovery_ s.
Proof.
  destruct ev as [packet | ack | loss | ackEvent [loss |] | | bytes];
    cbn [deliver carries_loss]; intros Hno; try discriminate; cbv zeta.
  - open_member.
    destruct (u64_max - encodedSize packet <? bytesInFlight_ s);
      cbn beta iota zeta; members; tidy.
  - destruct (onPacketAcked_final k conn ack s) as (Hss & Heor & _).
    split; assumption.
  - unfold onPacketAckOrLoss. rewrite final_bind. unfold ret at 1.
    cbn beta iota.
    destruct ackEvent as [ack |]; [| unfold ret; cbn [final]; tidy].
    destruct (has_value (largestAckedPacket ack));
      [| unfold ret; cbn [final]; tidy].
    destruct (onPacketAcked_final k conn ack s) as (Hss & Heor & _).
    split; assumption.
  - open_member. members. tidy.
  - open_member.
    destruct (bytesInFlight_ s <? bytes); cbn beta iota zeta; members; tidy.
Qed.

(** X6. Only a loss changes [ssthresh] and [end_of_recovery]: on a trace
    that hands no loss to the controller they stay what they were after
    every event, be it a packet sent, an ack, bytes removed or a verified
    RTO. *)
Theorem only_loss_moves_ssthresh (k : Z)
    (trace : list (QuicConnectionStateBase * Event)) :
  forall s : State,
    Forall (fun ce => carries_loss (snd ce) = false) trace ->
    Forall (fun s' =>
              ssthresh_ s' = ssthresh_ s /\
              endOfRecovery_ s' = endOfRecovery_ s)
      (states_of k trace s).
Proof.
  induction trace as [| [conn ev] rest IH]; intros s Hall; cbn [states_of].
  - constructor.
  - inversion Hall as [| ? ? Hno Hrest]; subst. cbn [snd] in Hno.
    pose proof (deliver_without_loss k conn ev s Hno) as Hstep.
    cbv zeta in Hstep.
    destruct (deliver k conn ev s) as [[] s1 | e s1]; cbn [final] in Hstep.
    + constructor; [exact Hstep |].
      destruct Hstep as (Hs & He). rewrite <- Hs, <- He. apply IH, Hrest.
    + constructor; [exact Hstep | constructor].
Qed.

Lemma only_loss_moves_ssthresh_witness :
  Forall (fun ce => carries_loss (snd ce) = false) Sample.lossless_trace /\
  Forall (fun s' =>
            ssthresh_ s' = ssthresh_ Sample.avoiding /\
            endOfRecovery_ s' = endOfRecovery_ Sample.avoiding)
    (states_of 1252 Sample.lossless_trace Sample.avoiding).
Proof.
  assert (Forall (fun ce => carries_loss (snd ce) = false) Sample.lossless_trace)
    as Hno by (repeat constructor).
  split; [exact Hno |].
  exact (only_loss_moves_ssthresh 1252 Sample.lossless_trace Sample.avoiding Hno).
Defined.

Lemma onPacketLoss_succeeds (conn : QuicConnectionStateBase)
    (loss : LossEvent) (largestLost : PacketNum) (s : State) :
  largestLostPacketNum loss = Some largestLost ->
  lostBytes loss <= bytesInFlight_ s ->
  exists s1, onPacketLoss conn loss s = Ok tt s1.
Proof.
  intros Hl Hle. open_member. rewrite Hl. cbn beta iota zeta.
  assert ((bytesInFlight_ s <? lostBytes loss) = false) as E
    by (apply Z.ltb_ge; lia).
  rewrite E. cbn beta iota zeta. members.
  destruct (endOfRecovery_ s <? largestLost); cbn beta iota zeta;
    eexists; reflexivity.
Qed.

(** X7. [onPacketAckOrLoss] handles the loss before the ack.  When the loss
    opens a recovery epoch, an ack handed over in the same call for a packet
    below the connection's largest sent packet cannot grow the window: the
    call ends, whether the ack part returns or fails, with the window at the
    clamped half of what it was, [ssthresh] equal to it and
    [end_of_recovery] at the largest sent packet. *)
Theorem ack_with_loss_cannot_grow (k : Z) (conn : QuicConnectionStateBase)
    (ack : AckEvent) (loss : LossEvent) (largestLost largest : PacketNum)
    (s : State) :
  largestLostPacketNum loss = Some largestLost ->
  endOfRecovery_ s < largestLost ->
  lostBytes loss <= bytesInFlight_ s ->
  largestAckedPacket ack = Some largest ->
  largest < largestSent (lossState conn) ->
  let s' := final (onPacketAckOrLoss k conn (Some ack) (Some loss) s) in
  cwndBytes_ s' = bound_to conn (cwndBytes_ s / 2) /\
  ssthresh_ s' = cwndBytes_ s' /\
  endOfRecovery_ s' = largestSent (lossState conn).
Proof.
  intros Hl Hnew Hle Ha Hold. cbv zeta.
  unfold onPacketAckOrLoss. rewrite final_bind.
  destruct (onPacketLoss_succeeds conn loss largestLost s Hl Hle)
    as (s1 & Hrun).
  rewrite Hrun. rewrite Ha. cbn [has_value].
  destruct (onPacketLoss_new_epoch conn loss largestLost s s1 Hl Hnew Hrun)
    as (Hc1 & Hs1 & He1).
  assert (acked_inside (endOfRecovery_ s1) ack) as Hin
    by (unfold acked_inside; rewrite Ha, He1; exact Hold).
  destruct (ack_inside_epoch k conn ack s1 Hin) as (Hc2 & Hs2 & He2).
  rewrite Hc2, Hs2, He2. tidy.
Qed.

Lemma ack_with_loss_cannot_grow_witness :
  largestLostPacketNum Sample.loss = Some 9 /\
  endOfRecovery_ Sample.avoiding < 9 /\
  lostBytes Sample.loss <= bytesInFlight_ Sample.avoiding /\
  largestAckedPacket Sample.ack = Some 9 /\
  9 < largestSent (lossState Sample.conn) /\
  cwndBytes_
    (final (onPacketAckOrLoss 1252 Sample.conn (Some Sample.ack)
              (Some Sample.loss) Sample.avoiding))
  = 6260.
Proof.
  assert (endOfRecovery_ Sample.avoiding < 9) as H1 by evaluate.
  assert (lostBytes Sample.loss <= bytesInFlight_ Sample.avoiding) as H2
    by evaluate.
  assert (9 < largestSent (lossState Sample.conn)) as H3 by evaluate.
  split; [reflexivity | split; [exact H1 | split; [exact H2 | split;
    [reflexivity | split; [exact H3 |]]]]].
  rewrite (proj1 (ack_with_loss_cannot_grow 1252 Sample.conn Sample.ack
                    Sample.loss 9 9 Sample.avoiding eq_refl H1 H2 eq_refl
                    H3)).
  vm_compute. reflexivity.
Defined.

(** X8. Sending a packet uses up that much of the writable bytes: when
    [onPacketSent] returns, [getWritableBytes] is what it was less the
    encoded size of the packet, and 0 when the packet was larger than what
    was writable. *)
Theorem writable_bytes_after_send (packet : OutstandingPacket)
    (s s' : State) :
  u64 (cwndBytes_ s) ->
  u64 (bytesInFlight_ s) ->
  u64 (encodedSize packet) ->
  onPacketSent packet s = Ok tt s' ->
  getWritableBytes s'
    = Z.max 0 (getWritableBytes s - encodedSize packet).
Proof.
  intros Hc Hb Hp. open_member.
  destruct (u64_max - encodedSize packet <? bytesInFlight_ s) eqn:Eov;
    cbn beta iota zeta; [discriminate |].
  apply Z.ltb_ge in Eov. intros [= <-].
  unfold u64 in Hc, Hb, Hp. unfold getWritableBytes. members.
  rewrite add64_exact by lia.
  destruct (bytesInFlight_ s + encodedSize packet >? cwndBytes_ s) eqn:E1;
    destruct (bytesInFlight_ s >? cwndBytes_ s) eqn:E2;
    rewrite ?Z.gtb_ltb in E1, E2;
    first [apply Z.ltb_lt in E1 | apply Z.ltb_ge in E1];
    first [apply Z.ltb_lt in E2 | apply Z.ltb_ge in E2];
    unfold sub64;
    rewrite ?wrap64_id by (unfold u64; rewrite u64_max_modulus in Eov; lia);
    lia.
Qed.

Lemma writable_bytes_after_send_witness :
  u64 (cwndBytes_ Sample.avoiding) /\
  u64 (bytesInFlight_ Sample.avoiding) /\
  u64 (encodedSize (mkOutstandingPacket 1252)) /\
  onPacketSent (mkOutstandingPacket 1252) Sample.avoiding
    = Ok tt (mkState 12520 12520 6252 7) /\
  getWritableBytes (mkState 12520 12520 6252 7) = 6268.
Proof.
  assert (u64 (cwndBytes_ Sample.avoiding)) as Hc by evaluate.
  assert (u64 (bytesInFlight_ Sample.avoiding)) as Hb by evaluate.
  assert (u64 (encodedSize (mkOutstandingPacket 1252))) as Hp by evaluate.
  assert (onPacketSent (mkOutstandingPacket 1252) Sample.avoiding
          = Ok tt (mkState 12520 12520 6252 7)) as Hrun
    by (vm_compute; reflexivity).
  split; [exact Hc | split; [exact Hb | split; [exact Hp | split;
    [exact Hrun |]]]].
  rewrite (writable_bytes_after_send (mkOutstandingPacket 1252)
             Sample.avoiding _ Hc Hb Hp Hrun).
  vm_compute. reflexivity.
Defined.

(** X9. A controller constructed from settings that fit 64 bits, with
    [min_cwnd_in_mss <= max_cwnd_in_mss], starts with a window of
    [init_cwnd_in_mss] packets brought into [[min_cwnd_in_mss,
    max_cwnd_in_mss]], nothing in flight, so all of the window writable, and
    it starts in slow start exactly when that window is below 2^32 - 1
    bytes, the initial [ssthresh]. *)
Theorem construct_window (conn : QuicConnectionStateBase) :
  settings_u64 conn ->
  minCwndInMss (transportSettings conn) <= maxCwndInMss (transportSettings conn) ->
  initCwndInMss (transportSettings conn) * udpSendPacketLen conn <= u64_max ->
  maxCwndInMss (transportSettings conn) * udpSendPacketLen conn <= u64_max ->
  let packets :=
    Z.max (minCwndInMss (transportSettings conn))
      (Z.min (initCwndInMss (transportSettings conn))
         (maxCwndInMss (transportSettings conn))) in
  cwndBytes_ (construct conn) = packets * udpSendPacketLen conn /\
  bytesInFlight_ (construct conn) = 0 /\
  getWritableBytes (construct conn) = packets * udpSendPacketLen conn /\
  inSlowStart (construct conn)
    = (packets * udpSendPacketLen conn <? 2 ^ 32 - 1).
Proof.
  intros (Hlen & Hinit & Hmin & Hmax) Hle Hfi Hfm packets.
  unfold u64 in *.
  set (len := udpSendPacketLen conn) in *.
  set (mn := minCwndInMss (transportSettings conn)) in *.
  set (mx := maxCwndInMss (transportSettings conn)) in *.
  set (ini := initCwndInMss (transportSettings conn)) in *.
  assert (mn * len <= mx * len) as Hord
    by (apply Z.mul_le_mono_nonneg_r; lia).
  assert (cwndBytes_ (construct conn) = packets * len) as Hcwnd.
  { unfold construct. members. rewrite bound_to_eq.
    unfold lower_limit, upper_limit. fold len mn mx ini.
    rewrite !mul64_exact by lia.
    subst packets.
    destruct (Z.le_gt_cases ini mx) as [H1 | H1];
      destruct (Z.le_gt_cases mn ini) as [H2 | H2].
    - rewrite (Z.min_l ini mx), (Z.max_r mn ini) by lia.
      assert (mn * len <= ini * len <= mx * len)
        by (split; apply Z.mul_le_mono_nonneg_r; lia).
      lia.
    - rewrite (Z.min_l ini mx), (Z.max_l mn ini) by lia.
      assert (ini * len <= mn * len)
        by (apply Z.mul_le_mono_nonneg_r; lia).
      lia.
    - rewrite (Z.min_r ini mx), (Z.max_r mn mx) by lia.
      assert (mx * len <= ini * len)
        by (apply Z.mul_le_mono_nonneg_r; lia).
      lia.
    - lia. }
  assert (0 <= packets * len <= u64_max) as Hrange.
  { subst packets.
    destruct (Z.max_spec mn (Z.min ini mx)) as [[_ ->] | [_ ->]];
      [destruct (Z.min_spec ini mx) as [[_ ->] | [_ ->]] |]; nia. }
  split; [exact Hcwnd | split; [reflexivity | split]].
  - unfold getWritableBytes.
    change (bytesInFlight_ (construct conn)) with 0. rewrite Hcwnd.
    assert ((0 >? packets * len) = false) as E.
    { rewrite Z.gtb_ltb. apply Z.ltb_ge. lia. }
    rewrite E. unfold sub64. rewrite Z.sub_0_r. apply wrap64_id.
    unfold u64. rewrite u64_max_modulus in Hrange. lia.
  - unfold inSlowStart. rewrite Hcwnd. reflexivity.
Qed.

Lemma construct_window_witness :
  settings_u64 Sample.conn /\
  minCwndInMss (transportSettings Sample.conn)
    <= maxCwndInMss (transportSettings Sample.conn) /\
  initCwndInMss (transportSettings Sample.conn) * udpSendPacketLen Sample.conn
    <= u64_max /\
  maxCwndInMss (transportSettings Sample.conn) * udpSendPacketLen Sample.conn
    <= u64_max /\
  cwndBytes_ (construct Sample.conn) = 10 * 1252 /\
  inSlowStart (construct Sample.conn) = true.
Proof.
  assert (settings_u64 Sample.conn) as H1 by (unfold settings_u64; evaluate).
  assert (minCwndInMss (transportSettings Sample.conn)
            <= maxCwndInMss (transportSettings Sample.conn)) as H2 by evaluate.
  assert (initCwndInMss (transportSettings Sample.conn)
            * udpSendPacketLen Sample.conn <= u64_max) as H3 by evaluate.
  assert (maxCwndInMss (transportSettings Sample.conn)
            * udpSendPacketLen Sample.conn <= u64_max) as H4 by evaluate.
  split; [exact H1 | split; [exact H2 | split; [exact H3 | split;
    [exact H4 |]]]].
  destruct (construct_window Sample.conn H1 H2 H3 H4) as (Hc & _ & _ & Hs).
  split; [rewrite Hc | rewrite Hs]; vm_compute; reflexivity.
Defined.

End NewRenoBehaviour.

(** * More of ClientHandshake *)

Section HandshakeBehaviour.

Import Eff ClientHandshake.

Ltac open_handshake :=
  unfold computeOneRttCipher, computeZeroRttCipher, onRecvOneRttProtectedData,
    writeDataToStream, raiseError, waitForData, computeCiphers, buildAead,
    aead_getter, header_getter,
    getOneRttWriteCipher, getOneRttReadCipher, getZeroRttWriteCipher,
    getHandshakeReadCipher, getHandshakeWriteCipher,
    getOneRttReadHeaderCipher, getOneRttWriteHeaderCipher,
    getHandshakeReadHeaderCipher, getHandshakeWriteHeaderCipher,
    getZeroRttWriteHeaderCipher,
    deref, throw_if_error,
    bind, get, put, modify, raise, ret;
  cbn beta iota zeta.

(** X10. [computeOneRttCipher] always returns.  When 0-RTT was not attempted
    or early data was accepted it only moves the phase to
    OneRttKeysDerived.  It never records an acceptance: [zeroRttRejected_]
    holds [false] afterwards only if it did before.  And it ends with no
    error stored only if none was stored before and the phase is now
    OneRttKeysDerived. *)
Theorem computeOneRttCipher_outcome {fizz : Fizz} (earlyDataAccepted : bool)
    (s : State) :
  exists s',
    computeOneRttCipher earlyDataAccepted s = Ok tt s' /\
    (earlyDataAttempted_ s = false \/ earlyDataAccepted = true ->
       s' = set_phase Phase.OneRttKeysDerived s) /\
    (zeroRttRejected_ s' = Some false -> zeroRttRejected_ s = Some false) /\
    (error_ s' = None ->
       error_ s = None /\ phase_ s' = Phase.OneRttKeysDerived).
Proof.
  open_handshake.
  destruct (earlyDataAttempted_ s) eqn:Hatt;
    destruct earlyDataAccepted; cbn [andb negb];
    try (eexists; split; [reflexivity |]; cbn; repeat split; auto;
         intros [H | H]; discriminate H).
  destruct (earlyParametersMatch (state_ s)); cbn beta iota;
    eexists; (split; [reflexivity |]); cbn; repeat split; auto;
    try discriminate; intros [H | H]; discriminate H.
Qed.

Lemma computeOneRttCipher_outcome_witness :
  exists s',
    computeOneRttCipher false (Scripted.attempted true) = Ok tt s' /\
    zeroRttRejected_ s' = Some true /\
    phase_ s' = Phase.OneRttKeysDerived.
Proof.
  destruct (computeOneRttCipher_outcome false (Scripted.attempted true))
    as (s' & Hrun & _ & _ & Hclean).
  exists s'. split; [exact Hrun |].
  assert (Ok tt s'
          = computeOneRttCipher false (Scripted.attempted true)) as Heq
    by (symmetry; exact Hrun).
  vm_compute in Heq. injection Heq as ->. split; reflexivity.
Defined.

(** X11. A rejected 0-RTT attempt does not go unnoticed.
    [computeZeroRttCipher] fails its check when the TLS state has no early
    data parameters and otherwise only notes the attempt; a following
    [computeOneRttCipher(false)] then either records the rejection
    ([zeroRttRejected_ = true], phase OneRttKeysDerived, stored error
    untouched) when the early parameters still match, or stores
    EARLY_DATA_REJECTED and leaves phase and verdict alone when they do
    not. *)
Theorem zero_rtt_rejection_is_reported {fizz : Fizz} (s : State) :
  (earlyDataParams (state_ s) = None ->
     computeZeroRttCipher s = Failed CheckFailed s) /\
  (earlyDataParams (state_ s) <> None ->
     exists s1 s2,
       computeZeroRttCipher s = Ok tt s1 /\
       s1 = set_earlyDataAttempted true s /\
       computeOneRttCipher false s1 = Ok tt s2 /\
       if earlyParametersMatch (state_ s)
       then zeroRttRejected_ s2 = Some true /\
            phase_ s2 = Phase.OneRttKeysDerived /\
            error_ s2 = error_ s
       else error_ s2 = Some early_data_rejected /\
            phase_ s2 = phase_ s /\
            zeroRttRejected_ s2 = zeroRttRejected_ s).
Proof.
  split.
  - intros Hnone. open_handshake. rewrite Hnone. reflexivity.
  - intros Hsome. open_handshake.
    destruct (earlyDataParams (state_ s)) as [c |]; [| congruence].
    cbn beta iota.
    destruct (earlyParametersMatch (state_ s)) eqn:Hmatch;
      eexists; eexists;
      (split; [reflexivity |]); (split; [reflexivity |]);
      cbn; rewrite Hmatch; cbn;
      (split; [reflexivity |]); repeat split.
Qed.

Lemma zero_rtt_rejection_is_reported_witness :
  earlyDataParams (state_ (Scripted.attempted false)) <> None /\
  error_ (final (computeOneRttCipher false
                   (final (computeZeroRttCipher (Scripted.attempted false)))))
  = Some early_data_rejected.
Proof.
  assert (earlyDataParams (state_ (Scripted.attempted false)) <> None) as H
    by discriminate.
  split; [exact H |].
  destruct (proj2 (zero_rtt_rejection_is_reported (Scripted.attempted false))
              H) as (s1 & s2 & H1 & _ & H2 & H3).
  rewrite H1. cbn [final]. rewrite H2. cbn [final].
  exact (proj1 H3).
Defined.

(** X12. Installing and taking ciphers round-trips.  When
    [computeCiphers] returns, the slot pair of its kind holds the derived
    AEAD and the packet number cipher of the secret, the slots of every
    other kind are what they were, and, with no error stored, the two
    getters of the kind hand out exactly that pair and leave both slots
    empty. *)
Theorem computeCiphers_then_take {fizz : Fizz} (kind : CipherKind)
    (secret : ByteRange) (s s1 : State) :
  error_ s = None ->
  computeCiphers kind secret s = Ok tt s1 ->
  exists aead,
    buildAead kind secret s = Ok aead s /\
    aead_slot kind s1 = Some aead /\
    header_slot kind s1 = Some (makePacketNumberCipher secret) /\
    (forall kind', kind' <> kind ->
       aead_slot kind' s1 = aead_slot kind' s /\
       header_slot kind' s1 = header_slot kind' s) /\
    exists s2,
      (a <- aead_getter kind ;; h <- header_getter kind ;; ret (a, h))%eff s1
        = Ok (Some aead, Some (makePacketNumberCipher secret)) s2 /\
      aead_slot kind s2 = None /\
      header_slot kind s2 = None.
Proof.
  intros Herr. unfold computeCiphers. unfold bind at 1.
  pose proof (buildAead_final kind secret s) as Hb.
  destruct (buildAead kind secret s) as [aead s0 | e s0];
    cbn [final] in Hb; subst s0; [| discriminate].
  intros Hrun. exists aead. split; [reflexivity |].
  destruct kind; revert Hrun; unfold bind, modify; cbn beta iota;
    intros [= <-];
    (split; [reflexivity |]); (split; [reflexivity |]);
    (split;
     [ intros kind' Hother; destruct kind'; try congruence;
       split; reflexivity
     | eexists; open_handshake; cbn; rewrite Herr; cbn; rewrite Herr;
       split; [reflexivity | split; reflexivity] ]).
Qed.

Lemma fresh_has_no_error : error_ Scripted.fresh = None.
Proof. reflexivity. Qed.

Lemma computeCiphers_then_take_witness :
  error_ Scripted.fresh = None /\
  (exists s1,
     computeCiphers OneRttRead Scripted.secret Scripted.fresh = Ok tt s1 /\
     aead_slot OneRttRead s1 = Some Scripted.secret /\
     aead_slot OneRttWrite s1 = None).
Proof.
  split; [reflexivity |].
  assert (exists s1,
            computeCiphers OneRttRead Scripted.secret Scripted.fresh
            = Ok tt s1) as (s1 & Hrun) by (eexists; vm_compute; reflexivity).
  exists s1. split; [exact Hrun |].
  destruct (computeCiphers_then_take OneRttRead Scripted.secret
              Scripted.fresh s1 fresh_has_no_error Hrun)
    as (aead & Hbuild & Hslot & _ & Hothers & _).
  split.
  - rewrite Hslot. f_equal.
    assert (Ok aead Scripted.fresh
            = Ok Scripted.secret Scripted.fresh) as Heq
      by (rewrite <- Hbuild; vm_compute; reflexivity).
    injection Heq as ->. reflexivity.
  - rewrite (proj1 (Hothers OneRttWrite ltac:(discriminate))). reflexivity.
Defined.

(** X13. Which keys are derived.  0-RTT write ciphers come from the cipher
    suite of the early data parameters and a key scheduler made for it,
    whether or not a cipher suite has been negotiated or a live key
    scheduler exists; every other kind comes from the negotiated cipher
    suite and the live key scheduler.  Both use the labels "quic key" and
    "quic iv". *)
Theorem computeCiphers_derivation {fizz : Fizz} (kind : CipherKind)
    (secret : ByteRange) (s : State) :
  (forall suite,
     kind = ZeroRttWrite ->
     earlyDataParams (state_ s) = Some suite ->
     exists s1,
       computeCiphers kind secret s = Ok tt s1 /\
       aead_slot kind s1
       = Some (deriveRecordAeadWithLabel (state_ s)
                 (makeKeyScheduler (state_ s) suite) suite secret
                 "quic key" "quic iv")) /\
  (forall suite scheduler,
     kind <> ZeroRttWrite ->
     cipher (state_ s) = Some suite ->
     keyScheduler (state_ s) = Some scheduler ->
     exists s1,
       computeCiphers kind secret s = Ok tt s1 /\
       aead_slot kind s1
       = Some (deriveRecordAeadWithLabel (state_ s) scheduler suite secret
                 "quic key" "quic iv")).
Proof.
  split.
  - intros suite -> Hearly. open_handshake. rewrite Hearly. cbn.
    eexists. split; reflexivity.
  - intros suite scheduler Hkind Hsuite Hsched.
    destruct kind; try congruence; open_handshake;
      rewrite Hsuite; cbn beta iota; rewrite Hsched; cbn;
      eexists; split; reflexivity.
Qed.

Lemma computeCiphers_derivation_witness :
  earlyDataParams (state_ (Scripted.attempted true)) = Some tt /\
  exists s1,
    computeCiphers ZeroRttWrite Scripted.secret (Scripted.attempted true)
      = Ok tt s1 /\
    zeroRttWriteCipher_ s1 = Some Scripted.secret.
Proof.
  split; [reflexivity |].
  destruct (proj1 (computeCiphers_derivation ZeroRttWrite Scripted.secret
                     (Scripted.attempted true)) tt eq_refl eq_refl)
    as (s1 & Hrun & Hslot).
  exists s1. split; [exact Hrun | exact Hslot].
Defined.

(** *** How [doHandshake] ends *)

Lemma buildAead_failure {fizz : Fizz} (kind : CipherKind) (secret : ByteRange)
    (s : State) e s' :
  buildAead kind secret s = Failed e s' ->
  s' = s /\ e = EmptyOptional /\ raised_by_callback e s'.
Proof.
  unfold buildAead, deref, bind, get, ret, raise. cbn beta iota zeta.
  destruct kind; cbn beta iota;
    destruct (cipher (state_ s)) eqn:Hc,
      (earlyDataParams (state_ s)) eqn:He,
      (keyScheduler (state_ s)) eqn:Hk; cbn beta iota;
    intros H; try discriminate H; injection H as <- <-;
    (split; [reflexivity | split; [reflexivity |]]);
    cbn [raised_by_callback]; auto.
Qed.

Lemma callback_failure {fizz : Fizz} (cb : Callback) (s : State) e s' :
  callback cb s = Failed e s' -> raised_by_callback e s'.
Proof.
  destruct cb as [kind secret | error | | encryptionLevel data | | accepted];
    cbn [callback].
  - unfold computeCiphers. unfold bind at 1.
    destruct (buildAead kind secret s) as [aead s0 | e0 s0] eqn:Hb.
    + destruct kind; unfold bind, modify; cbn beta iota; discriminate.
    + intros [= <- <-].
      exact (proj2 (proj2 (buildAead_failure kind secret s _ _ Hb))).
  - open_handshake. discriminate.
  - open_handshake. discriminate.
  - open_handshake. destruct encryptionLevel; cbn; discriminate.
  - open_handshake. destruct (earlyDataParams (state_ s)) eqn:He;
      cbn beta iota; [discriminate |].
    intros [= <- <-]. exact He.
  - open_handshake.
    destruct (earlyDataAttempted_ s), accepted; cbn [andb negb];
      try discriminate.
    destruct (earlyParametersMatch (state_ s)); cbn beta iota; discriminate.
Qed.

Lemma callbacks_failure {fizz : Fizz} (cbs : list Callback) :
  forall (s : State) e s',
    callbacks cbs s = Failed e s' -> raised_by_callback e s'.
Proof.
  induction cbs as [| cb rest IH]; intros s e s'; cbn [callbacks].
  - unfold ret. discriminate.
  - unfold bind at 1.
    destruct (callback cb s) as [[] s1 | e1 s1] eqn:Hcb.
    + apply IH.
    + intros [= <- <-]. exact (callback_failure cb s _ _ Hcb).
Qed.

Lemma processSocketData_failure {fizz : Fizz} (b : ReadBuf) (s : State) e s' :
  processSocketData b s = Failed e s' -> raised_by_callback e s'.
Proof.
  unfold processSocketData, bind, get, put. cbn beta iota.
  destruct (recordLayer (state_ s) (read_buf b s)) as [[state' rest] cbs].
  cbn beta iota. apply callbacks_failure.
Qed.

Lemma stored_error_is_thrown {fizz : Fizz} (e : Exception) (s : State) :
  error_ s = Some e -> every_getter_throws e s.
Proof.
  intros Herr kind.
  destruct kind; open_handshake; rewrite Herr; split; reflexivity.
Qed.

Lemma doHandshake_loop_outcome {fizz : Fizz} (fuel : nat) :
  forall (s : State) o,
    doHandshake_loop fuel s = Some o ->
    match o with
    | Ok _ s' =>
      waitForData_ s' = true /\ (waitForData_ s = false -> error_ s' = None)
    | Failed (Thrown e) s' => error_ s' = Some e
    | Failed e s' => raised_by_callback e s'
    end.
Proof.
  induction fuel as [| fuel IH]; intros s o; cbn [doHandshake_loop];
    destruct (waitForData_ s) eqn:Hwait.
  - intros [= <-]. split; [exact Hwait | discriminate].
  - discriminate.
  - intros [= <-]. split; [exact Hwait | discriminate].
  - unfold bind at 1.
    destruct (processSocketData
                (buf_of_level (getReadRecordLayerEncryptionLevel s)) s)
      as [[] s1 | e s1] eqn:Hp.
    + unfold throw_if_error, bind, get, raise, ret. cbn beta iota.
      destruct (error_ s1) as [e |] eqn:Herr.
      * intros [= <-]. exact Herr.
      * intros Hloop. specialize (IH s1 o Hloop).
        destruct o as [[] s' | [e | |] s']; auto.
        destruct IH as [Hw Hnone]. split; [exact Hw |]. intros _.
        destruct (waitForData_ s1) eqn:Hw1; [| auto].
        destruct fuel; cbn [doHandshake_loop] in Hloop; rewrite Hw1 in Hloop;
          injection Hloop as <-; exact Herr.
    + intros [= <-].
      pose proof (processSocketData_failure _ s e s1 Hp) as Hcause.
      destruct e; [destruct Hcause | exact Hcause | exact Hcause].
Qed.

(** X14. How [doHandshake] ends on a non-null buffer.  When it returns, the
    record layer is waiting for data and no error is stored.  When it does
    not return, one of three things has happened.  It has thrown the stored
    error: then every cipher getter called afterwards throws the same
    exception.  Or the CHECK of [computeZeroRttCipher] has failed: then the
    TLS state it stopped in has no early data parameters.  Or [buildAead]
    has dereferenced an empty value: then the TLS state it stopped in lacks
    the early data parameters, the negotiated cipher suite or the key
    scheduler.  In the last two cases what ends the call is not the stored
    error, and no error need be stored. *)
Theorem doHandshake_outcome {fizz : Fizz} (fuel : nat)
    (bytes : list Byte.byte) (encryptionLevel : EncryptionLevel.t)
    (s : State) o :
  doHandshake fuel (Some bytes) encryptionLevel s = Some o ->
  match o with
  | Ok _ s' => waitForData_ s' = true /\ error_ s' = None
  | Failed (Thrown e) s' => error_ s' = Some e /\ every_getter_throws e s'
  | Failed CheckFailed s' => earlyDataParams (state_ s') = None
  | Failed EmptyOptional s' =>
    earlyDataParams (state_ s') = None \/
    cipher (state_ s') = None \/
    keyScheduler (state_ s') = None
  end.
Proof.
  cbn [doHandshake]. cbv zeta. intros Hloop.
  apply doHandshake_loop_outcome in Hloop.
  destruct o as [[] s' | [e | |] s']; cbn [raised_by_callback] in Hloop.
  - destruct Hloop as [Hw Hnone]. split; [exact Hw |]. apply Hnone.
    destruct (buf_of_level encryptionLevel);
      destruct (Phase.eqb (phase_ s) Phase.Initial); reflexivity.
  - split; [exact Hloop | apply stored_error_is_thrown, Hloop].
  - exact Hloop.
  - exact Hloop.
Qed.

Lemma doHandshake_outcome_witness :
  exists o,
    doHandshake 4 (Some [Byte.x16; Byte.x03]) EncryptionLevel.Initial
      Scripted.fresh = Some o /\
    waitForData_ (final o) = true /\ error_ (final o) = None.
Proof.
  exists (Ok tt Scripted.derived).
  assert (doHandshake 4 (Some [Byte.x16; Byte.x03]) EncryptionLevel.Initial
            Scripted.fresh = Some (Ok tt Scripted.derived)) as Hrun
    by (vm_compute; reflexivity).
  split; [exact Hrun |].
  exact (doHandshake_outcome 4 [Byte.x16; Byte.x03] EncryptionLevel.Initial
           Scripted.fresh (Ok tt Scripted.derived) Hrun).
Defined.

(** An exception that is not the stored error: asked for the 0-RTT write
    ciphers without early data parameters, [doHandshake] ends by the
    exception of the empty value, with no error stored, and the getters
    called afterwards return what their slots hold, here nothing. *)
Example doHandshake_unstored_exception :
  exists s',
    doHandshake 4 (Some [Byte.x16; Byte.x03]) EncryptionLevel.Initial
      Scripted.unprepared = Some (Failed EmptyOptional s') /\
    error_ s' = None /\
    getZeroRttWriteCipher s' = Ok None s' /\
    getOneRttReadCipher s' = Ok None s'.
Proof. eexists. vm_compute. repeat split. Qed.

(** X15. The phase Initial is left for good.  None of [doHandshake],
    [computeOneRttCipher] and [onRecvOneRttProtectedData] takes a handshake
    that is past Initial back to Initial, and once [doHandshake] has ended
    on a non-null buffer, returning or throwing, the phase is not
    Initial. *)
Theorem initial_is_left_for_good {fizz : Fizz} (fuel : nat) (op : Operation)
    (s s' : State) :
  perform fuel op s = Some s' ->
  (phase_ s <> Phase.Initial -> phase_ s' <> Phase.Initial) /\
  (forall bytes encryptionLevel,
     op = DoHandshake (Some bytes) encryptionLevel ->
     phase_ s' <> Phase.Initial).
Proof.
  intros Hrun. split.
  - intros Hpast.
    destruct op as [data encryptionLevel | accepted |]; cbn [perform] in Hrun.
    + destruct (doHandshake fuel data encryptionLevel s) as [o |] eqn:Hdo;
        [| discriminate].
      cbn [option_map] in Hrun. injection Hrun as <-.
      destruct (doHandshake_phase fuel data encryptionLevel s o Hdo)
        as [H | [[H _] | H]]; congruence.
    + injection Hrun as <-.
      destruct (callback_phase (ComputeOneRttCipher accepted) s) as [H | H];
        cbn [callback] in H; rewrite H; [exact Hpast | discriminate].
    + injection Hrun as <-. open_handshake.
      destruct (phase_ s) eqn:Hph; cbn; congruence.
  - intros bytes encryptionLevel ->. cbn [perform doHandshake] in Hrun.
    cbv zeta in Hrun.
    match type of Hrun with
    | option_map _ (doHandshake_loop _ ?s3) = _ =>
      destruct (doHandshake_loop fuel s3) as [o |] eqn:Hloop;
        [| discriminate];
      pose proof (doHandshake_loop_phase fuel s3 o Hloop) as Hphase
    end.
    cbn [option_map] in Hrun. injection Hrun as <-.
    destruct Hphase as [H | H]; rewrite H; [| discriminate].
    destruct (buf_of_level encryptionLevel);
      destruct (phase_ s) eqn:Hph; cbn; congruence.
Qed.

Lemma initial_is_left_for_good_witness :
  perform 4 Scripted.first_flight Scripted.fresh = Some Scripted.derived /\
  phase_ Scripted.fresh = Phase.Initial /\
  phase_ Scripted.derived <> Phase.Initial.
Proof.
  assert (perform 4 Scripted.first_flight Scripted.fresh
          = Some Scripted.derived) as Hrun by (vm_compute; reflexivity).
  split; [exact Hrun | split; [reflexivity |]].
  exact (proj2 (initial_is_left_for_good 4 Scripted.first_flight
                  Scripted.fresh Scripted.derived Hrun)
           [Byte.x16; Byte.x03] EncryptionLevel.Initial eq_refl).
Defined.

(** X16. The error stored last is the one in force.  [raiseError] replaces
    whatever error was stored: after it every cipher getter throws the new
    exception, and after [raiseError] with an empty wrapper no error is
    stored any more and the getters hand out the ciphers of their slots
    again. *)
Theorem raiseError_replaces {fizz : Fizz} (first second : exception_wrapper)
    (s : State) :
  let s' := final (raiseError second (final (raiseError first s))) in
  s' = final (raiseError second s) /\
  error_ s' = second /\
  (forall e, second = Some e -> every_getter_throws e s') /\
  (second = None ->
   forall kind, exists s2 s3,
     aead_getter kind s' = Ok (aead_slot kind s) s2 /\
     header_getter kind s' = Ok (header_slot kind s) s3).
Proof.
  cbv zeta. split; [reflexivity | split; [reflexivity | split]].
  - intros e ->. apply stored_error_is_thrown. reflexivity.
  - intros -> kind.
    destruct kind; eexists; eexists; open_handshake; cbn; split; reflexivity.
Qed.

Lemma raiseError_replaces_witness :
  every_getter_throws early_data_rejected
    (final (raiseError (Some early_data_rejected)
              (final (raiseError None Scripted.established)))).
Proof.
  exact (proj1 (proj2 (proj2 (raiseError_replaces None
                                (Some early_data_rejected)
                                Scripted.established)))
           early_data_rejected eq_refl).
Defined.

End HandshakeBehaviour.
